(** * time-passed: the date logic of [src/App.tsx]

    The widget parses a typed date against an ordered list of patterns,
    shows the week of the selected date and breaks the time elapsed up to
    today into years, months and days.

    [App.tsx] is written against two things that are not part of the
    repository: the [Date] object of ECMAScript and the [date-fns] library.
    Both are embedded here as far as [App.tsx] reaches them:

    - [ES]: the abstract operations of ECMA-262 (Day, YearFromTime, MakeDay,
      ...) and the [Date] methods built from them.  A [Date] is its
      local time value, an integer count of milliseconds.  The zone offset
      is taken to be constant, so it cancels in every operation used here,
      and time values are not clipped to the range of ECMA-262.
    - [DateFns]: [compareAsc], the [differenceIn...] family and
      [startOfWeek], following the published sources of date-fns (4.x).
    - [JSString]: the string operations used, over code units below 256.
    - [DateFnsParse]: [parse], [isValid] and [format] of date-fns for the
      units [d], [M] and [y], with the month tables of the [ro] and
      [en-US] locales.
    - [App]: the code of [App.tsx]. *)

From Stdlib Require Import ZArith List String Ascii Bool Lia.
Import ListNotations.
Open Scope Z_scope.

(** ** ECMAScript dates *)

Module ES.

(** A time value: milliseconds since the epoch, in local time. *)
Definition Date : Type := Z.

Definition msPerSecond : Z := 1000.
Definition msPerMinute : Z := 60000.
Definition msPerHour : Z := 3600000.
Definition msPerDay : Z := 86400000.

Definition Day (t : Z) : Z := t / msPerDay.
Definition TimeWithinDay (t : Z) : Z := t mod msPerDay.

Definition InLeapYearB (y : Z) : bool :=
  ((y mod 4 =? 0) && negb (y mod 100 =? 0)) || (y mod 400 =? 0).

Definition DaysInYear (y : Z) : Z := if InLeapYearB y then 366 else 365.

Definition DayFromYear (y : Z) : Z :=
  365 * (y - 1970) + (y - 1969) / 4 - (y - 1901) / 100 + (y - 1601) / 400.

(** ECMA-262 defines YearFromTime(t) as the largest [y] with
    TimeFromYear(y) <= t.  This is a closed form of it: an estimate from
    the mean year length, corrected by at most one year (lemma
    [YearFromDay_spec] states the defining property). *)
Definition YearFromDay (n : Z) : Z :=
  let y := 1970 + (400 * n) / 146097 in
  if DayFromYear (y + 1) <=? n then y + 1
  else if n <? DayFromYear y then y - 1
  else y.

Definition YearFromTime (t : Z) : Z := YearFromDay (Day t).

Definition InLeapYear (t : Z) : Z :=
  if InLeapYearB (YearFromTime t) then 1 else 0.

Definition DayWithinYear (t : Z) : Z := Day t - DayFromYear (YearFromTime t).

Definition MonthFromTime (t : Z) : Z :=
  let d := DayWithinYear t in
  let l := InLeapYear t in
  if d <? 31 then 0
  else if d <? 59 + l then 1
  else if d <? 90 + l then 2
  else if d <? 120 + l then 3
  else if d <? 151 + l then 4
  else if d <? 181 + l then 5
  else if d <? 212 + l then 6
  else if d <? 243 + l then 7
  else if d <? 273 + l then 8
  else if d <? 304 + l then 9
  else if d <? 334 + l then 10
  else 11.

Definition DateFromTime (t : Z) : Z :=
  let d := DayWithinYear t in
  let l := InLeapYear t in
  match MonthFromTime t with
  | 0 => d + 1
  | 1 => d - 30
  | 2 => d - 58 - l
  | 3 => d - 89 - l
  | 4 => d - 119 - l
  | 5 => d - 150 - l
  | 6 => d - 180 - l
  | 7 => d - 211 - l
  | 8 => d - 242 - l
  | 9 => d - 272 - l
  | 10 => d - 303 - l
  | _ => d - 333 - l
  end.

Definition WeekDay (t : Z) : Z := (Day t + 4) mod 7.

Definition HourFromTime (t : Z) : Z := (t / msPerHour) mod 24.
Definition MinFromTime (t : Z) : Z := (t / msPerMinute) mod 60.
Definition SecFromTime (t : Z) : Z := (t / msPerSecond) mod 60.
Definition msFromTime (t : Z) : Z := t mod msPerSecond.

Definition MakeTime (hour min sec ms : Z) : Z :=
  hour * msPerHour + min * msPerMinute + sec * msPerSecond + ms.

(** Days of the year before the first of month [mn] (0-based), [l] being 1
    in a leap year. *)
Definition DaysBeforeMonth (mn l : Z) : Z :=
  match mn with
  | 0 => 0
  | 1 => 31
  | 2 => 59 + l
  | 3 => 90 + l
  | 4 => 120 + l
  | 5 => 151 + l
  | 6 => 181 + l
  | 7 => 212 + l
  | 8 => 243 + l
  | 9 => 273 + l
  | 10 => 304 + l
  | _ => 334 + l
  end.

(** The length of month [mn] (0-based), for stating the range of
    DateFromTime. *)
Definition DaysInMonth (leap : bool) (mn : Z) : Z :=
  match mn with
  | 1 => if leap then 29 else 28
  | 3 | 5 | 8 | 10 => 30
  | _ => 31
  end.

(** MakeDay: the day number of the first of month [mn] of year [ym], plus
    [date - 1].  [month] and [date] may be out of range: they carry over. *)
Definition MakeDay (year month date : Z) : Z :=
  let ym := year + month / 12 in
  let mn := month mod 12 in
  DayFromYear ym + DaysBeforeMonth mn (if InLeapYearB ym then 1 else 0)
  + date - 1.

Definition MakeDate (day time : Z) : Z := day * msPerDay + time.

(** *** Methods of [Date.prototype] *)

Definition getTime (d : Date) : Z := d.
Definition getFullYear (d : Date) : Z := YearFromTime d.
Definition getMonth (d : Date) : Z := MonthFromTime d.
Definition getDate (d : Date) : Z := DateFromTime d.
Definition getDay (d : Date) : Z := WeekDay d.
Definition getHours (d : Date) : Z := HourFromTime d.
Definition getMinutes (d : Date) : Z := MinFromTime d.
Definition getSeconds (d : Date) : Z := SecFromTime d.
Definition getMilliseconds (d : Date) : Z := msFromTime d.

(** [d.setDate(date)] *)
Definition setDate (d : Date) (date : Z) : Date :=
  MakeDate (MakeDay (YearFromTime d) (MonthFromTime d) date) (TimeWithinDay d).

(** [d.setMonth(month)] and [d.setMonth(month, date)] *)
Definition setMonth (d : Date) (month : Z) (date : option Z) : Date :=
  let dt := match date with Some x => x | None => DateFromTime d end in
  MakeDate (MakeDay (YearFromTime d) month dt) (TimeWithinDay d).

(** [d.setFullYear(year)] and [d.setFullYear(year, month, date)] *)
Definition setFullYear (d : Date) (year : Z) (month date : option Z) : Date :=
  let m := match month with Some x => x | None => MonthFromTime d end in
  let dt := match date with Some x => x | None => DateFromTime d end in
  MakeDate (MakeDay year m dt) (TimeWithinDay d).

(** [d.setHours(hour, min, sec, ms)] *)
Definition setHours (d : Date) (hour min sec ms : Z) : Date :=
  MakeDate (Day d) (MakeTime hour min sec ms).

(** The date [year]-[month]-[date] (month 1-based) at local midnight. *)
Definition ymd (year month date : Z) : Date :=
  MakeDate (MakeDay year (month - 1) date) 0.

End ES.

(** ** date-fns: comparing and subtracting dates *)

Module DateFns.
Import ES.

Definition compareAsc (dateLeft dateRight : Date) : Z :=
  let diff := getTime dateLeft - getTime dateRight in
  if diff <? 0 then -1 else if diff >? 0 then 1 else diff.

Definition startOfDay (date : Date) : Date := setHours date 0 0 0 0.
Definition endOfDay (date : Date) : Date := setHours date 23 59 59 999.

Definition endOfMonth (date : Date) : Date :=
  let month := getMonth date in
  let d := setFullYear date (getFullYear date) (Some (month + 1)) (Some 0) in
  setHours d 23 59 59 999.

Definition isLastDayOfMonth (date : Date) : bool :=
  getTime (endOfDay date) =? getTime (endOfMonth date).

Definition differenceInCalendarYears (laterDate earlierDate : Date) : Z :=
  getFullYear laterDate - getFullYear earlierDate.

Definition differenceInCalendarMonths (laterDate earlierDate : Date) : Z :=
  let yearsDiff := getFullYear laterDate - getFullYear earlierDate in
  let monthsDiff := getMonth laterDate - getMonth earlierDate in
  yearsDiff * 12 + monthsDiff.

(** Both operands are local midnights, so the quotient is exact and the
    [Math.round] of the source is the identity. *)
Definition differenceInCalendarDays (laterDate earlierDate : Date) : Z :=
  (getTime (startOfDay laterDate) - getTime (startOfDay earlierDate))
  / msPerDay.

(** The first non-zero difference ([a || b || ...] in the source). *)
Fixpoint firstNonZero (l : list Z) : Z :=
  match l with
  | [] => 0
  | [x] => x
  | x :: r => if x =? 0 then firstNonZero r else x
  end.

Definition compareLocalAsc (laterDate earlierDate : Date) : Z :=
  let diff := firstNonZero
    [ getFullYear laterDate - getFullYear earlierDate;
      getMonth laterDate - getMonth earlierDate;
      getDate laterDate - getDate earlierDate;
      getHours laterDate - getHours earlierDate;
      getMinutes laterDate - getMinutes earlierDate;
      getSeconds laterDate - getSeconds earlierDate;
      getMilliseconds laterDate - getMilliseconds earlierDate ] in
  if diff <? 0 then -1 else if diff >? 0 then 1 else diff.

Definition differenceInDays (laterDate earlierDate : Date) : Z :=
  let sign := compareLocalAsc laterDate earlierDate in
  let difference := Z.abs (differenceInCalendarDays laterDate earlierDate) in
  let laterDate_ := setDate laterDate (getDate laterDate - sign * difference) in
  let isLastDayNotFull :=
    if compareLocalAsc laterDate_ earlierDate =? - sign then 1 else 0 in
  sign * (difference - isLastDayNotFull).

(** Default rounding method: [Math.trunc]. *)
Definition differenceInWeeks (laterDate earlierDate : Date) : Z :=
  Z.quot (differenceInDays laterDate earlierDate) 7.

Definition differenceInMonths (laterDate earlierDate : Date) : Z :=
  let sign := compareAsc laterDate earlierDate in
  let difference :=
    Z.abs (differenceInCalendarMonths laterDate earlierDate) in
  if difference <? 1 then 0
  else
    let working :=
      if (getMonth laterDate =? 1) && (getDate laterDate >? 27)
      then setDate laterDate 30 else laterDate in
    let working :=
      setMonth working (getMonth working - sign * difference) None in
    let isLastMonthNotFull := compareAsc working earlierDate =? - sign in
    let isLastMonthNotFull :=
      if isLastDayOfMonth laterDate && (difference =? 1)
         && (compareAsc laterDate earlierDate =? 1)
      then false else isLastMonthNotFull in
    sign * (difference - (if isLastMonthNotFull then 1 else 0)).

Definition differenceInYears (laterDate earlierDate : Date) : Z :=
  let sign := compareAsc laterDate earlierDate in
  let diff := Z.abs (differenceInCalendarYears laterDate earlierDate) in
  let laterDate_ := setFullYear laterDate 1584 None None in
  let earlierDate_ := setFullYear earlierDate 1584 None None in
  let partial := compareAsc laterDate_ earlierDate_ =? - sign in
  sign * (diff - (if partial then 1 else 0)).

(** [startOfWeek(date, { weekStartsOn })] *)
Definition startOfWeek (date : Date) (weekStartsOn : Z) : Date :=
  let day := getDay date in
  let diff := (if day <? weekStartsOn then 7 else 0) + day - weekStartsOn in
  let d := setDate date (getDate date - diff) in
  setHours d 0 0 0 0.

(** [Math.round(x / y)] for [y > 0]: halves round up. *)
Definition roundDiv (x y : Z) : Z := (2 * x + y) / (2 * y).

Definition millisecondsInWeek : Z := 604800000.

Definition addDays (date : Date) (amount : Z) : Date :=
  if amount =? 0 then date else setDate date (getDate date + amount).

Definition addWeeks (date : Date) (amount : Z) : Date :=
  addDays date (amount * 7).


Definition getYear (date : Date) : Z := getFullYear date.

(** [constructFrom(date, 0)] followed by [setFullYear(year, 0, day)] and
    [setHours(0, 0, 0, 0)]: the local midnight of [day] January. *)
Definition januaryOf (year day : Z) : Date :=
  setHours (setFullYear 0 year (Some 0) (Some day)) 0 0 0 0.

(** [getWeekYear(date, { weekStartsOn, firstWeekContainsDate })] *)
Definition getWeekYear (date : Date) (weekStartsOn firstWeekContainsDate : Z)
  : Z :=
  let year := getFullYear date in
  let startOfNextYear :=
    startOfWeek (januaryOf (year + 1) firstWeekContainsDate) weekStartsOn in
  let startOfThisYear :=
    startOfWeek (januaryOf year firstWeekContainsDate) weekStartsOn in
  if getTime date >=? getTime startOfNextYear then year + 1
  else if getTime date >=? getTime startOfThisYear then year
  else year - 1.

Definition startOfWeekYear (date : Date)
    (weekStartsOn firstWeekContainsDate : Z) : Date :=
  let year := getWeekYear date weekStartsOn firstWeekContainsDate in
  startOfWeek (januaryOf year firstWeekContainsDate) weekStartsOn.

(** [getWeek(date, { weekStartsOn, firstWeekContainsDate })] *)
Definition getWeek (date : Date) (weekStartsOn firstWeekContainsDate : Z) : Z :=
  let diff :=
    getTime (startOfWeek date weekStartsOn)
    - getTime (startOfWeekYear date weekStartsOn firstWeekContainsDate) in
  roundDiv diff millisecondsInWeek + 1.

Definition startOfISOWeek (date : Date) : Date := startOfWeek date 1.

Definition getISOWeekYear (date : Date) : Z :=
  let year := getFullYear date in
  let startOfNextYear := startOfISOWeek (januaryOf (year + 1) 4) in
  let startOfThisYear := startOfISOWeek (januaryOf year 4) in
  if getTime date >=? getTime startOfNextYear then year + 1
  else if getTime date >=? getTime startOfThisYear then year
  else year - 1.

Definition startOfISOWeekYear (date : Date) : Date :=
  startOfISOWeek (januaryOf (getISOWeekYear date) 4).

Definition getISOWeeksInYear (date : Date) : Z :=
  let thisYear := startOfISOWeekYear date in
  let nextYear := startOfISOWeekYear (addWeeks thisYear 60) in
  let diff := getTime nextYear - getTime thisYear in
  roundDiv diff millisecondsInWeek.

End DateFns.

(** ** JavaScript strings

    Strings are sequences of code units below 256. *)

Module JSString.
Open Scope string_scope.
Open Scope Z_scope.

Definition code (c : ascii) : Z := Z.of_nat (nat_of_ascii c).

(** [\d] *)
Definition isDigit (c : ascii) : bool := (48 <=? code c) && (code c <=? 57).

(** [[A-Za-z]] *)
Definition isLatinLetter (c : ascii) : bool :=
  ((65 <=? code c) && (code c <=? 90)) || ((97 <=? code c) && (code c <=? 122)).

(** [\w] *)
Definition isWordChar (c : ascii) : bool :=
  isDigit c || isLatinLetter c || (code c =? 95).

(** White space and line terminators: what [trim] removes and [\s]
    matches (tab, LF, VT, FF, CR, space, no-break space). *)
Definition isWhiteSpace (c : ascii) : bool :=
  ((9 <=? code c) && (code c <=? 13)) || (code c =? 32) || (code c =? 160).

Definition toLower (c : ascii) : ascii :=
  if (65 <=? code c) && (code c <=? 90)
  then ascii_of_nat (nat_of_ascii c + 32) else c.

Fixpoint trimStart (s : string) : string :=
  match s with
  | String c r => if isWhiteSpace c then trimStart r else s
  | EmptyString => EmptyString
  end.

Fixpoint trimEnd (s : string) : string :=
  match s with
  | String c r =>
      match trimEnd r with
      | EmptyString => if isWhiteSpace c then EmptyString else String c EmptyString
      | r' => String c r'
      end
  | EmptyString => EmptyString
  end.

(** [s.trim()] *)
Definition trim (s : string) : string := trimEnd (trimStart s).

Definition startsWithDigit (s : string) : bool :=
  match s with
  | String c _ => isDigit c
  | EmptyString => false
  end.

(** [/\S/.test(s)] *)
Fixpoint hasNonWhiteSpace (s : string) : bool :=
  match s with
  | String c r => negb (isWhiteSpace c) || hasNonWhiteSpace r
  | EmptyString => false
  end.

(** [s.indexOf(p) === 0], giving [s.slice(p.length)]. *)
Fixpoint stripPrefix (p s : string) : option string :=
  match p, s with
  | EmptyString, _ => Some s
  | String a p', String b s' =>
      if Ascii.eqb a b then stripPrefix p' s' else None
  | String _ _, EmptyString => None
  end.

(** A literal pattern under the [i] flag, anchored at the start: the
    matched text and what follows it. *)
Fixpoint matchCI (p s : string) : option (string * string) :=
  match p, s with
  | EmptyString, _ => Some (EmptyString, s)
  | String a p', String b s' =>
      if Ascii.eqb (toLower a) (toLower b)
      then match matchCI p' s' with
           | Some (m, rest) => Some (String b m, rest)
           | None => None
           end
      else None
  | String _ _, EmptyString => None
  end.

(** [/^(p1|p2|...)/i]: the first alternative that matches. *)
Fixpoint matchAlt (alts : list string) (s : string) : option (string * string) :=
  match alts with
  | [] => None
  | p :: alts' =>
      match matchCI p s with
      | Some r => Some r
      | None => matchAlt alts' s
      end
  end.

(** [/^\d{1,n}/]: the digits taken (possibly none) and the rest. *)
Fixpoint takeDigits (n : nat) (s : string) : string * string :=
  match n with
  | O => (EmptyString, s)
  | S k =>
      match s with
      | String c r =>
          if isDigit c
          then let (ds, rest) := takeDigits k r in (String c ds, rest)
          else (EmptyString, s)
      | EmptyString => (EmptyString, s)
      end
  end.

Definition digitValue (c : ascii) : Z := code c - 48.

Fixpoint parseIntFrom (acc : Z) (s : string) : Z :=
  match s with
  | String c r => parseIntFrom (acc * 10 + digitValue c) r
  | EmptyString => acc
  end.

(** [parseInt(s, 10)] on a string of digits. *)
Definition parseInt (s : string) : Z := parseIntFrom 0 s.

Definition digitChar (n : Z) : ascii := ascii_of_nat (Z.to_nat (48 + n)).

Fixpoint toDigits (fuel : nat) (n : Z) (acc : string) : string :=
  let acc' := String (digitChar (n mod 10)) acc in
  match fuel with
  | O => acc'
  | S f => if n <? 10 then acc' else toDigits f (n / 10) acc'
  end.

(** [n.toString()] for a non-negative integer. *)
Definition toString (n : Z) : string :=
  toDigits (Z.to_nat (Z.log2 n)) n EmptyString.

Fixpoint repeat0 (k : nat) : string :=
  match k with
  | O => EmptyString
  | S k' => String "0" (repeat0 k')
  end.

(** [s.padStart(targetLength, "0")] *)
Definition padStart0 (s : string) (targetLength : nat) : string :=
  repeat0 (targetLength - String.length s) ++ s.

End JSString.

(** ** date-fns: locales, [parse], [isValid], [format] *)

Module DateFnsParse.
Import ES JSString.
Open Scope string_scope.
Open Scope Z_scope.

Inductive Width := narrow | abbreviated | wide.

(** The month tables of a locale: [match.month] ([matchPatterns],
    [parsePatterns]) and [localize.month] ([monthValues]). *)
Record Locale := {
  matchMonthPatterns : Width -> list string;
  parseMonthPatterns : Width -> list string;
  monthValues : Width -> list string
}.

(** [date-fns/locale/ro] *)
Definition ro : Locale := {|
  matchMonthPatterns w :=
    match w with
    | narrow => ["i"; "f"; "m"; "a"; "a"; "s"; "o"; "n"; "d"]
    | abbreviated =>
        ["ian"; "feb"; "mar"; "apr"; "mai"; "iun"; "iul"; "aug"; "sep";
         "oct"; "noi"; "dec"]
    | wide =>
        ["ianuarie"; "februarie"; "martie"; "aprilie"; "mai"; "iunie";
         "iulie"; "august"; "septembrie"; "octombrie"; "noiembrie";
         "decembrie"]
    end;
  parseMonthPatterns w :=
    match w with
    | narrow => ["i"; "f"; "m"; "a"; "m"; "i"; "i"; "a"; "s"; "o"; "n"; "d"]
    | _ => ["ia"; "f"; "mar"; "ap"; "mai"; "iun"; "iul"; "au"; "s"; "o";
            "n"; "d"]
    end;
  monthValues w :=
    match w with
    | narrow => ["I"; "F"; "M"; "A"; "M"; "I"; "I"; "A"; "S"; "O"; "N"; "D"]
    | abbreviated =>
        ["ian"; "feb"; "mar"; "apr"; "mai"; "iun"; "iul"; "aug"; "sep";
         "oct"; "noi"; "dec"]
    | wide =>
        ["ianuarie"; "februarie"; "martie"; "aprilie"; "mai"; "iunie";
         "iulie"; "august"; "septembrie"; "octombrie"; "noiembrie";
         "decembrie"]
    end
|}.

(** [date-fns/locale/en-US], the default locale of [format]. *)
Definition enUS : Locale := {|
  matchMonthPatterns w :=
    match w with
    | narrow => ["j"; "f"; "m"; "a"; "s"; "o"; "n"; "d"]
    | abbreviated =>
        ["jan"; "feb"; "mar"; "apr"; "may"; "jun"; "jul"; "aug"; "sep";
         "oct"; "nov"; "dec"]
    | wide =>
        ["january"; "february"; "march"; "april"; "may"; "june"; "july";
         "august"; "september"; "october"; "november"; "december"]
    end;
  parseMonthPatterns w :=
    match w with
    | narrow => ["j"; "f"; "m"; "a"; "m"; "j"; "j"; "a"; "s"; "o"; "n"; "d"]
    | _ => ["ja"; "f"; "mar"; "ap"; "may"; "jun"; "jul"; "au"; "s"; "o";
            "n"; "d"]
    end;
  monthValues w :=
    match w with
    | narrow => ["J"; "F"; "M"; "A"; "M"; "J"; "J"; "A"; "S"; "O"; "N"; "D"]
    | abbreviated =>
        ["Jan"; "Feb"; "Mar"; "Apr"; "May"; "Jun"; "Jul"; "Aug"; "Sep";
         "Oct"; "Nov"; "Dec"]
    | wide =>
        ["January"; "February"; "March"; "April"; "May"; "June"; "July";
         "August"; "September"; "October"; "November"; "December"]
    end
|}.

(** What a call can end in besides a value: the [RangeError] date-fns
    throws for a malformed format string, and [NotModelled] for format
    strings outside this embedding (units other than [d], [M], [y], the
    two-digit year, ordinals, quoted text and long formats), none of
    which [App.tsx] uses for parsing. *)
Inductive Exn := RangeError | NotModelled.

Inductive completion (A : Type) :=
| Normal (a : A)
| Throw (e : Exn).
Arguments Normal {A} a.
Arguments Throw {A} e.

(** A [Date] object as a function returns it: [None] is Invalid Date. *)
Definition DateValue : Type := option Date.

Definition isValid (d : DateValue) : bool :=
  match d with Some _ => true | None => false end.

(** *** Tokens of a format string

    [formattingTokensRegExp], on format strings without quotes and
    ordinals: a run of one repeated word character, or any single other
    character. *)
Fixpoint tokenizeFrom (run : string) (s : string) : list string :=
  let flush := match run with EmptyString => [] | _ => [run] end in
  match s with
  | EmptyString => flush
  | String c r =>
      if isWordChar c then
        match run with
        | String c0 _ =>
            if Ascii.eqb c0 c then tokenizeFrom (String c run) r
            else run :: tokenizeFrom (String c EmptyString) r
        | EmptyString => tokenizeFrom (String c EmptyString) r
        end
      else (flush ++ [String c EmptyString])%list ++ tokenizeFrom EmptyString r
  end%list.

Definition tokenize (formatStr : string) : list string :=
  tokenizeFrom EmptyString formatStr.

Fixpoint contains (c : ascii) (s : string) : bool :=
  match s with
  | String a r => Ascii.eqb a c || contains c r
  | EmptyString => false
  end.

(** Format strings this embedding covers at all. *)
Definition plainFormat (formatStr : string) : bool :=
  negb (contains "'" formatStr || contains "o" formatStr
        || contains "P" formatStr || contains "p" formatStr).

(** *** Numeric patterns *)

(** [parseNumericPattern(pattern, dateString)] for a pattern given by
    the text it matches. *)
Definition parseNumericPattern (m : option (string * string))
  : option (Z * string) :=
  match m with
  | Some (matched, rest) => Some (parseInt matched, rest)
  | None => None
  end.

(** [parseNDigits(n, dateString)]: [/^\d{1,n}/]. *)
Definition parseNDigits (n : nat) (dateString : string) : option (Z * string) :=
  parseNumericPattern
    match takeDigits n dateString with
    | (EmptyString, _) => None
    | (ds, rest) => Some (ds, rest)
    end.

Definition isChar (c : ascii) (lo hi : Z) : bool :=
  (lo <=? code c) && (code c <=? hi).

(** [numericPatterns.date]: [/^(3[0-1]|[0-2]?\d)/] *)
Definition matchDate (s : string) : option (string * string) :=
  match s with
  | String a (String b r) =>
      if isChar a 51 51 && isChar b 48 49
      then Some (String a (String b EmptyString), r)
      else if isChar a 48 50 && isDigit b
      then Some (String a (String b EmptyString), r)
      else if isDigit a then Some (String a EmptyString, String b r)
      else None
  | String a EmptyString =>
      if isDigit a then Some (String a EmptyString, EmptyString) else None
  | EmptyString => None
  end.

(** [numericPatterns.month]: [/^(1[0-2]|0?\d)/] *)
Definition matchMonth (s : string) : option (string * string) :=
  match s with
  | String a (String b r) =>
      if isChar a 49 49 && isChar b 48 50
      then Some (String a (String b EmptyString), r)
      else if isChar a 48 48 && isDigit b
      then Some (String a (String b EmptyString), r)
      else if isDigit a then Some (String a EmptyString, String b r)
      else None
  | String a EmptyString =>
      if isDigit a then Some (String a EmptyString, EmptyString) else None
  | EmptyString => None
  end.

(** *** Month names: [locale.match.month] (built by [buildMatchFn]) *)

Fixpoint findIndexFrom (i : Z) (patterns : list string) (s : string) : Z :=
  match patterns with
  | [] => -1
  | p :: ps =>
      match matchCI p s with
      | Some _ => i
      | None => findIndexFrom (i + 1) ps s
      end
  end.

(** The index is [-1] where the source has [undefined]: no month setter
    validates either. *)
Definition matchLocaleMonth (locale : Locale) (w : Width) (s : string)
  : option (Z * string) :=
  match matchAlt (matchMonthPatterns locale w) s with
  | Some (matched, rest) =>
      Some (findIndexFrom 0 (parseMonthPatterns locale w) matched, rest)
  | None => None
  end.

Definition orElse {A} (a b : option A) : option A :=
  match a with Some _ => a | None => b end.

(** *** Setters *)

Inductive Setter :=
| DateTimezoneSetter
| YearSetter (year : Z)
| MonthSetter (month : Z)
| DateSetter (date : Z).

Definition priority (s : Setter) : Z :=
  match s with
  | DateTimezoneSetter => 10
  | YearSetter _ => 130
  | MonthSetter _ => 110
  | DateSetter _ => 90
  end.

Definition subPriority (s : Setter) : Z :=
  match s with
  | DateTimezoneSetter => -1
  | DateSetter _ => 1
  | _ => 0
  end.

Definition DAYS_IN_MONTH : list Z :=
  [31; 28; 31; 30; 31; 30; 31; 31; 30; 31; 30; 31].
Definition DAYS_IN_MONTH_LEAP_YEAR : list Z :=
  [31; 29; 31; 30; 31; 30; 31; 31; 30; 31; 30; 31].

Definition isLeapYearIndex (year : Z) : bool :=
  (Z.rem year 400 =? 0)
  || ((Z.rem year 4 =? 0) && negb (Z.rem year 100 =? 0)).

Definition validate (s : Setter) (date : Date) : bool :=
  match s with
  | DateTimezoneSetter => true
  | YearSetter year => year >? 0
  | MonthSetter month => (month >=? 0) && (month <=? 11)
  | DateSetter value =>
      let year := getFullYear date in
      let month := getMonth date in
      let table := if isLeapYearIndex year
                   then DAYS_IN_MONTH_LEAP_YEAR else DAYS_IN_MONTH in
      (value >=? 1) && (value <=? nth (Z.to_nat month) table 0)
  end.

Definition set (s : Setter) (date : Date) : Date :=
  match s with
  | DateTimezoneSetter => date
  | YearSetter year =>
      setHours (setFullYear date year (Some 0) (Some 1)) 0 0 0 0
  | MonthSetter month => setHours (setMonth date month (Some 1)) 0 0 0 0
  | DateSetter value => setHours (setDate date value) 0 0 0 0
  end.

(** *** Parsers of the units [d], [M], [y] *)

Definition hasParser (c : ascii) : bool :=
  Ascii.eqb c "d" || Ascii.eqb c "M" || Ascii.eqb c "y".

Definition mapValue {A B} (f : A -> B) (r : option (A * string))
  : option (B * string) :=
  match r with
  | Some (v, rest) => Some (f v, rest)
  | None => None
  end.

(** [parser.run(dateString, token, locale.match)] *)
Definition runParser (token : string) (dateString : string) (locale : Locale)
  : completion (option (Setter * string)) :=
  match token with
  | String "d" EmptyString =>
      Normal (mapValue DateSetter
                (parseNumericPattern (matchDate dateString)))
  | String "d" _ =>
      Normal (mapValue DateSetter
                (parseNDigits (String.length token) dateString))
  | String "M" EmptyString =>
      Normal (mapValue (fun v => MonthSetter (v - 1))
                (parseNumericPattern (matchMonth dateString)))
  | String "M" (String "M" EmptyString) =>
      Normal (mapValue (fun v => MonthSetter (v - 1))
                (parseNDigits 2 dateString))
  | String "M" (String "M" (String "M" EmptyString)) =>
      Normal (mapValue MonthSetter
                (orElse (matchLocaleMonth locale abbreviated dateString)
                        (matchLocaleMonth locale narrow dateString)))
  | String "M" (String "M" (String "M" (String "M" (String "M" EmptyString)))) =>
      Normal (mapValue MonthSetter
                (matchLocaleMonth locale narrow dateString))
  | String "M" _ =>
      Normal (mapValue MonthSetter
                (orElse (matchLocaleMonth locale wide dateString)
                (orElse (matchLocaleMonth locale abbreviated dateString)
                        (matchLocaleMonth locale narrow dateString))))
  | String "y" EmptyString =>
      Normal (mapValue YearSetter (parseNDigits 4 dateString))
  | String "y" (String "y" EmptyString) => Throw NotModelled
  | String "y" _ =>
      Normal (mapValue YearSetter
                (parseNDigits (String.length token) dateString))
  | _ => Throw NotModelled
  end.

(** *** [parse] *)

(** The loop over the tokens: [None] is the early [return new Date(NaN)].
    [usedTokens] holds the first characters of the units seen; a unit
    seen twice is a [RangeError] (the units a parser declares
    incompatible are all outside [d], [M], [y]). *)
Fixpoint runTokens (tokens : list string) (dateString : string)
    (usedTokens : list ascii) (setters : list Setter) (locale : Locale)
  : completion (option (list Setter)) :=
  match tokens with
  | [] =>
      if hasNonWhiteSpace dateString then Normal None
      else Normal (Some setters)
  | token :: tokens' =>
      match token with
      | EmptyString => Throw NotModelled
      | String firstCharacter _ =>
          if hasParser firstCharacter then
            if existsb (Ascii.eqb firstCharacter) usedTokens
            then Throw RangeError
            else
              match runParser token dateString locale with
              | Throw e => Throw e
              | Normal None => Normal None
              | Normal (Some (setter, rest)) =>
                  runTokens tokens' rest (firstCharacter :: usedTokens)
                    (setters ++ [setter])%list locale
              end
          else if isLatinLetter firstCharacter then Throw NotModelled
          else
            match stripPrefix token dateString with
            | Some rest => runTokens tokens' rest usedTokens setters locale
            | None => Normal None
            end
      end
  end.

(** Insertion into a list sorted by decreasing key (stable). *)
Fixpoint insertDesc (x : Z) (l : list Z) : list Z :=
  match l with
  | [] => [x]
  | y :: r => if y <? x then x :: l else y :: insertDesc x r
  end.

Definition sortDesc (l : list Z) : list Z :=
  fold_left (fun acc x => insertDesc x acc) l [].

Fixpoint dedup (l : list Z) : list Z :=
  match l with
  | [] => []
  | x :: r => x :: filter (fun y => negb (y =? x)) (dedup r)
  end.

(** The first setter of highest [subPriority] ([sort] is stable). *)
Fixpoint firstBySubPriority (l : list Setter) : option Setter :=
  match l with
  | [] => None
  | s :: r =>
      match firstBySubPriority r with
      | Some s' => if subPriority s <? subPriority s' then Some s' else Some s
      | None => Some s
      end
  end.

Definition uniquePrioritySetters (setters : list Setter) : list Setter :=
  flat_map
    (fun p =>
       match firstBySubPriority
               (filter (fun s => priority s =? p) setters) with
       | Some s => [s]
       | None => []
       end)
    (dedup (sortDesc (map priority setters))).

Fixpoint applySetters (setters : list Setter) (date : Date) : DateValue :=
  match setters with
  | [] => Some date
  | s :: r => if validate s date then applySetters r (set s date) else None
  end.

(** [parse(dateStr, formatStr, referenceDate, { locale })] *)
Definition parse (dateStr formatStr : string) (referenceDate : Date)
    (locale : Locale) : completion DateValue :=
  if negb (plainFormat formatStr) then Throw NotModelled
  else
    match formatStr with
    | EmptyString =>
        match dateStr with
        | EmptyString => Normal (Some referenceDate)
        | _ => Normal None
        end
    | _ =>
        match runTokens (tokenize formatStr) dateStr []
                [DateTimezoneSetter] locale with
        | Throw e => Throw e
        | Normal None => Normal None
        | Normal (Some setters) =>
            Normal (applySetters (uniquePrioritySetters setters) referenceDate)
        end
    end.

(** *** [format] *)

(** [addLeadingZeros(number, targetLength)] *)
Definition addLeadingZeros (number : Z) (targetLength : nat) : string :=
  let output := padStart0 (toString (Z.abs number)) targetLength in
  if number <? 0 then String "-" output else output.

Definition localizeMonth (locale : Locale) (w : Width) (month : Z) : string :=
  nth (Z.to_nat month) (monthValues locale w) EmptyString.

(** One token of the format string. *)
Definition formatToken (date : Date) (token : string) (locale : Locale)
  : completion string :=
  match token with
  | String "d" _ =>
      Normal (addLeadingZeros (getDate date) (String.length token))
  | String "M" EmptyString
  | String "M" (String "M" EmptyString) =>
      Normal (addLeadingZeros (getMonth date + 1) (String.length token))
  | String "M" (String "M" (String "M" EmptyString)) =>
      Normal (localizeMonth locale abbreviated (getMonth date))
  | String "M" (String "M" (String "M" (String "M" (String "M" EmptyString)))) =>
      Normal (localizeMonth locale narrow (getMonth date))
  | String "M" _ => Normal (localizeMonth locale wide (getMonth date))
  | String "y" r =>
      let signedYear := getFullYear date in
      let year := if signedYear >? 0 then signedYear else 1 - signedYear in
      match r with
      | String "y" EmptyString => Normal (addLeadingZeros (Z.rem year 100) 2)
      | _ => Normal (addLeadingZeros year (String.length token))
      end
  | String c _ =>
      if isLatinLetter c then Throw NotModelled else Normal token
  | EmptyString => Throw NotModelled
  end.

Fixpoint formatTokens (date : Date) (tokens : list string) (locale : Locale)
  : completion string :=
  match tokens with
  | [] => Normal EmptyString
  | token :: tokens' =>
      match formatToken date token locale with
      | Throw e => Throw e
      | Normal s =>
          match formatTokens date tokens' locale with
          | Throw e => Throw e
          | Normal r => Normal (s ++ r)
          end
      end
  end.

(** [format(date, formatStr, { locale })] for a valid [date]. *)
Definition format (date : Date) (formatStr : string) (locale : Locale)
  : completion string :=
  if negb (plainFormat formatStr) then Throw NotModelled
  else formatTokens date (tokenize formatStr) locale.

End DateFnsParse.

(** ** [App.tsx] *)

Module App.
Import ES DateFns JSString DateFnsParse.
Open Scope string_scope.
Open Scope Z_scope.

Definition DATE_FORMATS : list string :=
  [ "dd.MM.yyyy";
    "dd-MM-yyyy";
    "dd/MM/yyyy";
    "d.M.yyyy";
    "d-M-yyyy";
    "d/M/yyyy";
    "dd MMMM yyyy";
    "d MMMM yyyy";
    "yyyy-MM-dd";
    "yyyy/MM/dd" ].

(** *** Effects

    The handlers read the system clock ([new Date()]) and call the
    date-fns parser, which may throw.  A computation runs in a [World]:
    the readings the clock will give, how many were taken, and a record
    of the calls made to [parse] (date string, format string). *)
Record World := {
  clock : nat -> Date;
  reads : nat;
  parseCalls : list (string * string)
}.

Definition M (A : Type) : Type := World -> completion A * World.

Definition ret {A} (a : A) : M A := fun w => (Normal a, w).

Definition bind {A B} (m : M A) (k : A -> M B) : M B :=
  fun w =>
    match m w with
    | (Normal a, w') => k a w'
    | (Throw e, w') => (Throw e, w')
    end.

Notation "x <- m ;; k" := (bind m (fun x => k))
  (at level 61, m at next level, right associativity).

(** [new Date()] *)
Definition newDate : M Date :=
  fun w =>
    (Normal (clock w (reads w)),
     {| clock := clock w; reads := S (reads w); parseCalls := parseCalls w |}).

(** [parse(value, format, referenceDate, { locale: ro })] *)
Definition callParse (value format : string) (referenceDate : Date)
  : M DateValue :=
  fun w =>
    (parse value format referenceDate ro,
     {| clock := clock w; reads := reads w;
        parseCalls := (parseCalls w ++ [(value, format)])%list |}).

(** The [for ... of] loop of [parseFlexibleDate] over the formats left. *)
Fixpoint parseFlexibleDateFrom (formats : list string) (value : string)
  : M (option Date) :=
  match formats with
  | [] => ret None
  | format :: formats' =>
      now <- newDate ;;
      parsed <- callParse value format now ;;
      if isValid parsed then ret parsed
      else parseFlexibleDateFrom formats' value
  end.

Definition parseFlexibleDate (value : string) : M (option Date) :=
  parseFlexibleDateFrom DATE_FORMATS value.

(** What the loop is meant to do, in the words of the specification: try
    the patterns in list order and return the first result that is a valid
    date.  [FirstMatch value formats tried r]: [tried] is the prefix of
    [formats] up to and including the first pattern that parses [value],
    and [r] is the date it gives; if no pattern parses [value], [tried] is
    all of [formats] and [r] is [None]. *)
Inductive FirstMatch (value : string)
  : list string -> list string -> option Date -> Prop :=
| FirstMatch_nil : FirstMatch value [] [] None
| FirstMatch_hit format formats d :
    (forall referenceDate,
        parse value format referenceDate ro = Normal (Some d)) ->
    FirstMatch value (format :: formats) [format] (Some d)
| FirstMatch_miss format formats tried r :
    (forall referenceDate,
        parse value format referenceDate ro = Normal None) ->
    FirstMatch value formats tried r ->
    FirstMatch value (format :: formats) (format :: tried) r.

(** The world after [n] more readings of the clock and the calls [calls]
    to [parse]. *)
Definition after (w : World) (n : nat) (calls : list (string * string))
  : World :=
  {| clock := clock w; reads := (reads w + n)%nat;
     parseCalls := (parseCalls w ++ calls)%list |}.

(** The state held by the [useState] hooks of [App]. *)
Record AppState := {
  selectedDate : Date;
  inputValue : string;
  isOpen : bool;
  error : option string
}.

Definition handleInputChange (value : string) (st : AppState) : AppState :=
  {| selectedDate := selectedDate st; inputValue := value;
     isOpen := isOpen st; error := error st |}.

Definition handleSearch (st : AppState) : M AppState :=
  match inputValue st with
  | EmptyString => ret st
  | _ =>
      parsed <- parseFlexibleDate (trim (inputValue st)) ;;
      match parsed with
      | Some d =>
          ret {| selectedDate := d; inputValue := EmptyString;
                 isOpen := isOpen st; error := None |}
      | None =>
          ret {| selectedDate := selectedDate st;
                 inputValue := inputValue st; isOpen := isOpen st;
                 error := Some "Invalid date. Please use a valid format." |}
      end
  end.

(** The [onBlur] handler of the text input. *)
Definition onBlur (st : AppState) : M AppState :=
  match inputValue st with
  | EmptyString => ret st
  | _ =>
      parsed <- parseFlexibleDate (trim (inputValue st)) ;;
      match parsed with
      | Some d =>
          text <- (fun w => (format d "dd.MM.yyyy" enUS, w)) ;;
          ret {| selectedDate := selectedDate st; inputValue := text;
                 isOpen := isOpen st; error := None |}
      | None => ret st
      end
  end.

(** *** The week of the selected date *)

Definition weekStart (selectedDate : Date) : Date :=
  startOfWeek selectedDate 1.

Definition weekDays (selectedDate : Date) : list Date :=
  map (fun i =>
         let d := weekStart selectedDate in
         setDate d (getDate d + i))
      [0; 1; 2; 3; 4; 5; 6].

(** *** Time passed, computed at each render

    [now] is the reading of the clock in [const today = new Date()]. *)
Definition today (now : Date) : Date := setHours now 0 0 0 0.

Definition years (now selectedDate : Date) : Z :=
  differenceInYears (today now) selectedDate.

Definition remainingAfterYears (now selectedDate : Date) : Date :=
  setFullYear selectedDate
    (getFullYear selectedDate + years now selectedDate) None None.

Definition months (now selectedDate : Date) : Z :=
  differenceInMonths (today now) (remainingAfterYears now selectedDate).

Definition remainingAfterMonths (now selectedDate : Date) : Date :=
  let r := remainingAfterYears now selectedDate in
  setMonth r (getMonth r + months now selectedDate) None.

Definition days (now selectedDate : Date) : Z :=
  differenceInDays (today now) (remainingAfterMonths now selectedDate).

Definition weeks (now selectedDate : Date) : Z :=
  differenceInWeeks (today now) selectedDate.

Definition totalDays (now selectedDate : Date) : Z :=
  differenceInDays (today now) selectedDate.

(** *** The week header and the week navigation *)

(** [getWeek(selectedDate, { weekStartsOn: 1 })]: the first week is the
    one that contains 1 January, the default of date-fns. *)
Definition currentWeek (selectedDate : Date) : Z := getWeek selectedDate 1 1.

Definition currentYear (selectedDate : Date) : Z := getYear selectedDate.

Definition totalWeeksInYear (selectedDate : Date) : Z :=
  getISOWeeksInYear selectedDate.

Definition setSelectedDate (d : Date) (st : AppState) : AppState :=
  {| selectedDate := d; inputValue := inputValue st;
     isOpen := isOpen st; error := error st |}.



Definition handleToday (st : AppState) : M AppState :=
  now <- newDate ;;
  ret (setSelectedDate now st).

(** *** The calendar popover *)

(** The [onSelect] handler of the calendar; [None] is [undefined]. *)
Definition onSelect (date : option Date) (st : AppState) : AppState :=
  match date with
  | Some d =>
      {| selectedDate := d; inputValue := EmptyString;
         isOpen := false; error := None |}
  | None => st
  end.

(** The [disabled] predicate of the calendar, [now] being the reading of
    the clock in [date > new Date()]. *)
Definition disabled (now date : Date) : bool := getTime date >? getTime now.

(** *** The cells of the week grid *)

Definition dayCompare (day : Date) : Date := setHours day 0 0 0 0.

Definition selectedCompare (selectedDate : Date) : Date :=
  setHours selectedDate 0 0 0 0.

Definition isToday (now day : Date) : bool :=
  getTime (dayCompare day) =? getTime (today now).

Definition isSelected (selectedDate day : Date) : bool :=
  getTime (dayCompare day) =? getTime (selectedCompare selectedDate).

(** The [onClick] handler of the cell showing [day]. *)
Definition dayClick (day : Date) (st : AppState) : M AppState :=
  text <- (fun w => (format day "dd.MM.yyyy" enUS, w)) ;;
  ret {| selectedDate := day; inputValue := text;
         isOpen := isOpen st; error := None |}.

(** *** Worlds and states used in the examples *)

Definition world0 (now : Date) : World :=
  {| clock := fun _ => now; reads := O; parseCalls := [] |}.

Definition typed (text : string) : AppState :=
  {| selectedDate := ymd 2026 11 2; inputValue := text;
     isOpen := false; error := None |}.

End App.

Import ES DateFns JSString DateFnsParse App.
Open Scope string_scope.
Open Scope Z_scope.


(** ** Facts: the calendar of ECMA-262 *)

Ltac month_cases m H :=
  assert (m = 0 \/ m = 1 \/ m = 2 \/ m = 3 \/ m = 4 \/ m = 5 \/ m = 6 \/
          m = 7 \/ m = 8 \/ m = 9 \/ m = 10 \/ m = 11) as H by lia;
  destruct H as [H|[H|[H|[H|[H|[H|[H|[H|[H|[H|[H|H]]]]]]]]]]]; subst m.

Section CalendarFacts.

Lemma DayFromYear_step y : DayFromYear (y + 1) = DayFromYear y + DaysInYear y.
Proof.
  unfold DayFromYear, DaysInYear, InLeapYearB.
  destruct (y mod 4 =? 0) eqn:E4; destruct (y mod 100 =? 0) eqn:E100;
    destruct (y mod 400 =? 0) eqn:E400; cbn [andb orb negb];
    rewrite ?Z.eqb_eq, ?Z.eqb_neq in *;
    Z.to_euclidean_division_equations; lia.
Qed.

Lemma DayFromYear_mono y1 y2 : y1 <= y2 -> DayFromYear y1 <= DayFromYear y2.
Proof.
  unfold DayFromYear. intros. Z.to_euclidean_division_equations; lia.
Qed.

(** The defining property of YearFromTime. *)
Lemma YearFromDay_spec n :
  DayFromYear (YearFromDay n) <= n < DayFromYear (YearFromDay n + 1).
Proof.
  unfold YearFromDay. cbv zeta.
  destruct (Z.leb_spec (DayFromYear (1970 + 400 * n / 146097 + 1)) n);
    [|destruct (Z.ltb_spec n (DayFromYear (1970 + 400 * n / 146097)))];
    unfold DayFromYear in *; Z.to_euclidean_division_equations; lia.
Qed.

Lemma YearFromDay_unique n y :
  DayFromYear y <= n < DayFromYear (y + 1) -> YearFromDay n = y.
Proof.
  intros H. pose proof (YearFromDay_spec n) as S.
  destruct (Z.lt_trichotomy (YearFromDay n) y) as [L | [E | L]]; auto.
  - pose proof (DayFromYear_mono (YearFromDay n + 1) y ltac:(lia)). lia.
  - pose proof (DayFromYear_mono (y + 1) (YearFromDay n) ltac:(lia)). lia.
Qed.

Lemma Day_MakeDate d tod :
  0 <= tod < msPerDay -> Day (MakeDate d tod) = d.
Proof.
  intros H. unfold Day, MakeDate, msPerDay in *.
  Z.to_euclidean_division_equations; lia.
Qed.

Lemma TimeWithinDay_MakeDate d tod :
  0 <= tod < msPerDay -> TimeWithinDay (MakeDate d tod) = tod.
Proof.
  intros H. unfold TimeWithinDay, MakeDate, msPerDay in *.
  Z.to_euclidean_division_equations; lia.
Qed.

Lemma TimeWithinDay_range t : 0 <= TimeWithinDay t < msPerDay.
Proof. unfold TimeWithinDay, msPerDay. apply Z.mod_pos_bound. lia. Qed.

Lemma MakeDate_Day t : MakeDate (Day t) (TimeWithinDay t) = t.
Proof.
  unfold MakeDate, Day, TimeWithinDay, msPerDay.
  Z.to_euclidean_division_equations; lia.
Qed.

Lemma DayWithinYear_range t :
  0 <= DayWithinYear t < DaysInYear (YearFromTime t).
Proof.
  unfold DayWithinYear, YearFromTime.
  pose proof (YearFromDay_spec (Day t)) as S.
  rewrite DayFromYear_step in S. lia.
Qed.

(** Month and date of a time value: their ranges, and how they locate the
    day within its year. *)
Lemma MonthDate_spec t :
  0 <= MonthFromTime t <= 11 /\
  1 <= DateFromTime t
    <= DaysInMonth (InLeapYearB (YearFromTime t)) (MonthFromTime t) /\
  DaysBeforeMonth (MonthFromTime t) (InLeapYear t) + DateFromTime t - 1
    = DayWithinYear t.
Proof.
  pose proof (DayWithinYear_range t) as R.
  unfold DateFromTime, MonthFromTime, InLeapYear, DaysInYear in *.
  set (d := DayWithinYear t) in *. clearbody d.
  destruct (InLeapYearB (YearFromTime t)); cbv zeta;
    repeat match goal with
           | |- context [?a <? ?b] => destruct (Z.ltb_spec a b)
           end;
    cbn [DaysInMonth DaysBeforeMonth]; lia.
Qed.

Lemma MonthFromTime_range t : 0 <= MonthFromTime t <= 11.
Proof. apply MonthDate_spec. Qed.

Lemma DateFromTime_range t : 1 <= DateFromTime t <= 31.
Proof.
  destruct (MonthDate_spec t) as (Hm & Hd & _).
  assert (DaysInMonth (InLeapYearB (YearFromTime t)) (MonthFromTime t) <= 31).
  { unfold DaysInMonth.
    destruct (InLeapYearB _); destruct (MonthFromTime t) as [|p|p];
      try lia; repeat (destruct p as [p|p|]; try lia). }
  lia.
Qed.

(** MakeDay rebuilds the day number from the fields it reads, with any
    date in place of the current one. *)
Lemma MakeDay_fields t x :
  MakeDay (YearFromTime t) (MonthFromTime t) x = Day t + (x - DateFromTime t).
Proof.
  destruct (MonthDate_spec t) as (Hm & Hd & E).
  unfold MakeDay. cbv zeta.
  rewrite (Z.div_small (MonthFromTime t) 12) by lia.
  rewrite (Z.mod_small (MonthFromTime t) 12) by lia.
  rewrite Z.add_0_r.
  unfold InLeapYear, DayWithinYear in E. lia.
Qed.

(** A calendar date [y]-[m]-[d] that exists is read back from its day
    number. *)
Lemma fields_MakeDay y m d t :
  0 <= m <= 11 -> 1 <= d <= DaysInMonth (InLeapYearB y) m ->
  Day t = MakeDay y m d ->
  YearFromTime t = y /\ MonthFromTime t = m /\ DateFromTime t = d.
Proof.
  intros Hm Hd E.
  assert (Ey : YearFromTime t = y).
  { unfold YearFromTime. apply YearFromDay_unique. rewrite E.
    rewrite DayFromYear_step. unfold MakeDay, DaysInYear. cbv zeta.
    rewrite (Z.div_small m 12), (Z.mod_small m 12), Z.add_0_r by lia.
    month_cases m H; destruct (InLeapYearB y);
      cbn [DaysInMonth DaysBeforeMonth] in *; lia. }
  split; [exact Ey|].
  assert (Ed : DayWithinYear t
               = DaysBeforeMonth m (if InLeapYearB y then 1 else 0) + d - 1).
  { unfold DayWithinYear. rewrite Ey, E. unfold MakeDay. cbv zeta.
    rewrite (Z.div_small m 12), (Z.mod_small m 12), Z.add_0_r by lia. lia. }
  unfold DateFromTime, MonthFromTime, InLeapYear. rewrite Ey, Ed. cbv zeta.
  month_cases m H; destruct (InLeapYearB y);
    cbn [DaysInMonth DaysBeforeMonth] in *;
    repeat match goal with
           | |- context [?a <? ?b] =>
               destruct (Z.ltb_spec a b); try lia
           end;
    split; lia.
Qed.

Lemma WeekDay_range t : 0 <= WeekDay t <= 6.
Proof. unfold WeekDay. pose proof (Z.mod_pos_bound (Day t + 4) 7). lia. Qed.

End CalendarFacts.

(** ** Facts: moving a date by whole days *)

Section DayArithmetic.

Lemma setDate_shift t k : setDate t (getDate t + k) = t + k * msPerDay.
Proof.
  unfold setDate, getDate. rewrite MakeDay_fields.
  replace (DateFromTime t + k - DateFromTime t) with k by lia.
  pose proof (MakeDate_Day t) as E. unfold MakeDate in *. lia.
Qed.

Lemma Day_shift t k : Day (t + k * msPerDay) = Day t + k.
Proof. unfold Day, msPerDay. rewrite Z.div_add by lia. reflexivity. Qed.

Lemma setHours_midnight t : setHours t 0 0 0 0 = Day t * msPerDay.
Proof. unfold setHours, MakeDate, MakeTime. lia. Qed.

Lemma Day_midnight n : Day (n * msPerDay) = n.
Proof. unfold Day, msPerDay. apply Z.div_mul. lia. Qed.

Lemma TimeWithinDay_midnight n : TimeWithinDay (n * msPerDay) = 0.
Proof. unfold TimeWithinDay, msPerDay. apply Z.mod_mul. lia. Qed.

(** [startOfWeek] with weeks starting on Monday goes back [k] days, at
    most six, to a Monday, and to its midnight. *)
Lemma weekStart_eq t :
  exists k, 0 <= k <= 6 /\ (Day t - k + 4) mod 7 = 1 /\
            weekStart t = (Day t - k) * msPerDay.
Proof.
  unfold weekStart, startOfWeek. cbv zeta.
  set (k := (if getDay t <? 1 then 7 else 0) + getDay t - 1).
  exists k. pose proof (WeekDay_range t) as R.
  assert (K : 0 <= k <= 6 /\ (Day t - k + 4) mod 7 = 1).
  { subst k. unfold getDay, WeekDay in *.
    destruct (Z.ltb_spec ((Day t + 4) mod 7) 1);
      Z.to_euclidean_division_equations; lia. }
  destruct K as (K1 & K2). repeat split; try lia.
  replace (getDate t - k) with (getDate t + - k) by lia.
  rewrite setDate_shift, setHours_midnight, Day_shift. lia.
Qed.

Lemma weekDays_eq t :
  weekDays t = map (fun i => weekStart t + i * msPerDay) [0; 1; 2; 3; 4; 5; 6].
Proof.
  unfold weekDays. apply map_ext. intros i. cbv zeta. apply setDate_shift.
Qed.

End DayArithmetic.

(** ** Facts: [parse] on the patterns of [DATE_FORMATS] *)

(** Unfolds [parse] on a pattern given in full, down to the calls of the
    unit parsers on the date string. *)
Ltac unfold_parse :=
  unfold parse;
  match goal with
  | |- context [plainFormat ?f] => change (plainFormat f) with true
  end;
  match goal with
  | |- context [tokenize ?f] =>
      let t := eval vm_compute in (tokenize f) in
      change (tokenize f) with t
  end;
  cbn -[parseNDigits parseNumericPattern matchDate matchMonth stripPrefix
        matchLocaleMonth hasNonWhiteSpace orElse mapValue
        uniquePrioritySetters applySetters localizeMonth append
        getDate getMonth getFullYear];
  repeat match goal with
    | |- context [isLatinLetter ?c] =>
        let b := eval vm_compute in (isLatinLetter c) in
        change (isLatinLetter c) with b; cbv iota
    end.

Ltac split_parse :=
  repeat match goal with
    | |- context [parseNDigits ?n ?s] =>
        destruct (parseNDigits n s) as [[? ?]|]; cbn [mapValue]
    | |- context [parseNumericPattern ?m] =>
        destruct (parseNumericPattern m) as [[? ?]|]; cbn [mapValue]
    | |- context [stripPrefix ?p ?s] =>
        destruct (stripPrefix p s) as [?|]
    | |- context [orElse ?a ?b] =>
        destruct (orElse a b) as [[? ?]|]; cbn [mapValue]
    | |- context [hasNonWhiteSpace ?s] =>
        destruct (hasNonWhiteSpace s)
    end.

Ltac each_format Hf :=
  unfold DATE_FORMATS in Hf; cbn [In] in Hf;
  repeat (destruct Hf as [<- | Hf]); [..|destruct Hf].

Section ParseFacts.

(** The year setter leaves nothing of the reference date. *)
Lemma set_YearSetter y ref :
  set (YearSetter y) ref = MakeDay y 0 1 * msPerDay.
Proof.
  unfold set, setFullYear. rewrite setHours_midnight.
  rewrite Day_MakeDate by apply TimeWithinDay_range. reflexivity.
Qed.

Lemma applySetters_year_first y l ref :
  applySetters (YearSetter y :: l) ref = applySetters (YearSetter y :: l) 0.
Proof.
  cbn [applySetters validate]. rewrite !set_YearSetter. reflexivity.
Qed.

Lemma uniquePrioritySetters_dmy d m y :
  uniquePrioritySetters
    [DateTimezoneSetter; DateSetter d; MonthSetter m; YearSetter y]
  = [YearSetter y; MonthSetter m; DateSetter d; DateTimezoneSetter].
Proof. reflexivity. Qed.

Lemma uniquePrioritySetters_ymd d m y :
  uniquePrioritySetters
    [DateTimezoneSetter; YearSetter y; MonthSetter m; DateSetter d]
  = [YearSetter y; MonthSetter m; DateSetter d; DateTimezoneSetter].
Proof. reflexivity. Qed.

(** On every pattern of the list, [parse] returns normally, and what it
    returns does not depend on the reference date: every pattern sets the
    year, and the year setter comes first. *)
Lemma parse_DATE_FORMATS f s :
  In f DATE_FORMATS -> exists r, forall ref, parse s f ref ro = Normal r.
Proof.
  intros Hf. each_format Hf.
  all: unfold_parse; split_parse; try (exists None; reflexivity).
  all: rewrite ?uniquePrioritySetters_dmy, ?uniquePrioritySetters_ymd.
  all: eexists; intros ref; rewrite applySetters_year_first; reflexivity.
Qed.

Lemma after_0 w : after w 0 [] = w.
Proof.
  destruct w. unfold after. cbn. rewrite Nat.add_0_r, app_nil_r. reflexivity.
Qed.

(** The loop of [parseFlexibleDate] does what [FirstMatch] says, reads the
    clock once for each pattern tried and calls [parse] on these patterns
    in order. *)
Lemma parseFlexibleDateFrom_spec formats value w :
  (forall f, In f formats -> In f DATE_FORMATS) ->
  exists tried r,
    FirstMatch value formats tried r /\
    parseFlexibleDateFrom formats value w
    = (Normal r, after w (List.length tried) (map (pair value) tried)).
Proof.
  revert w. induction formats as [|f formats IH]; intros w Hin.
  - exists [], None. split; [constructor|].
    cbn. unfold ret. rewrite after_0. reflexivity.
  - destruct (parse_DATE_FORMATS f value (Hin f (or_introl eq_refl))) as [r Hr].
    cbn [parseFlexibleDateFrom]. unfold bind, newDate, callParse.
    rewrite Hr. destruct r as [d|]; cbn [isValid].
    + exists [f], (Some d). split; [constructor; exact Hr|].
      unfold ret, after. cbn. rewrite Nat.add_1_r. reflexivity.
    + match goal with
      | |- context [parseFlexibleDateFrom formats value ?w'] =>
          destruct (IH w' (fun g Hg => Hin g (or_intror Hg)))
            as (tried & r & FM & E); rewrite E
      end.
      exists (f :: tried), r. split; [constructor; assumption|].
      unfold after. cbn. f_equal. f_equal; [lia|].
      rewrite <- app_assoc. reflexivity.
Qed.

Lemma FirstMatch_functional value formats t1 r1 t2 r2 :
  FirstMatch value formats t1 r1 -> FirstMatch value formats t2 r2 ->
  t1 = t2 /\ r1 = r2.
Proof.
  intros H1. revert t2 r2.
  induction H1 as [|f fs d Hd|f fs tried r Hn _ IH]; intros t2 r2 H2;
    inversion H2; subst; auto.
  - match goal with
    | H : forall _, parse _ _ _ _ = Normal (Some ?d') |- _ =>
        specialize (H 0); rewrite (Hd 0) in H; inversion H; auto
    end.
  - match goal with
    | H : forall _, parse _ _ _ _ = Normal None |- _ =>
        specialize (H 0); rewrite (Hd 0) in H; discriminate
    end.
  - match goal with
    | H : forall _, parse _ _ _ _ = Normal (Some _) |- _ =>
        specialize (H 0); rewrite (Hn 0) in H; discriminate
    end.
  - match goal with
    | H : FirstMatch _ _ _ _ |- _ => destruct (IH _ _ H); subst; auto
    end.
Qed.

Lemma FirstMatch_all_fail value formats :
  (forall f, In f formats -> forall ref, parse value f ref ro = Normal None) ->
  FirstMatch value formats formats None.
Proof.
  induction formats as [|f fs IH]; intros H; constructor.
  - apply H. left. reflexivity.
  - apply IH. intros g Hg. apply H. right. exact Hg.
Qed.

Lemma FirstMatch_None value formats tried :
  FirstMatch value formats tried None ->
  tried = formats /\
  forall f, In f formats -> forall ref, parse value f ref ro = Normal None.
Proof.
  intros H. remember None as r eqn:Er.
  induction H as [| |f fs tried r Hn H IH]; try discriminate.
  - split; [reflexivity|]. intros f [].
  - destruct (IH Er) as [-> Hall]. subst r. split; [reflexivity|].
    intros g [<-|Hg]; [exact Hn|apply Hall; exact Hg].
Qed.

Lemma parseFlexibleDate_spec value w :
  exists tried r,
    FirstMatch value DATE_FORMATS tried r /\
    parseFlexibleDate value w
    = (Normal r, after w (List.length tried) (map (pair value) tried)).
Proof. apply parseFlexibleDateFrom_spec. auto. Qed.

End ParseFacts.

(** ** Facts: the setters of [parse] *)

Section SetterFacts.

Lemma isLeapYearIndex_eq y : isLeapYearIndex y = InLeapYearB y.
Proof.
  unfold isLeapYearIndex, InLeapYearB.
  assert (E : forall k, 0 < k -> (Z.rem y k =? 0) = (y mod k =? 0)).
  { intros k Hk.
    destruct (Z.eqb_spec (Z.rem y k) 0), (Z.eqb_spec (y mod k) 0); auto;
      exfalso; Z.to_euclidean_division_equations; nia. }
  rewrite !E by lia.
  destruct (y mod 4 =? 0), (y mod 100 =? 0), (y mod 400 =? 0); reflexivity.
Qed.

Lemma nth_DAYS_IN_MONTH y m :
  0 <= m <= 11 ->
  nth (Z.to_nat m)
      (if isLeapYearIndex y then DAYS_IN_MONTH_LEAP_YEAR else DAYS_IN_MONTH) 0
  = DaysInMonth (InLeapYearB y) m.
Proof.
  intros Hm. rewrite isLeapYearIndex_eq.
  assert (m = 0 \/ m = 1 \/ m = 2 \/ m = 3 \/ m = 4 \/ m = 5 \/ m = 6 \/
          m = 7 \/ m = 8 \/ m = 9 \/ m = 10 \/ m = 11) as H by lia.
  destruct H as [H|[H|[H|[H|[H|[H|[H|[H|[H|[H|[H|H]]]]]]]]]]]; subst m;
    destruct (InLeapYearB y); reflexivity.
Qed.

Lemma DaysInMonth_lower l m : 28 <= DaysInMonth l m.
Proof.
  unfold DaysInMonth. destruct l; destruct m as [|p|p]; try lia;
    repeat (destruct p as [p|p|]; try lia).
Qed.

(** The fields of the first of a month. *)
Lemma fields_first y m :
  0 <= m <= 11 ->
  YearFromTime (MakeDay y m 1 * msPerDay) = y /\
  MonthFromTime (MakeDay y m 1 * msPerDay) = m /\
  DateFromTime (MakeDay y m 1 * msPerDay) = 1.
Proof.
  intros Hm. apply fields_MakeDay; auto.
  - pose proof (DaysInMonth_lower (InLeapYearB y) m). lia.
  - apply Day_midnight.
Qed.

(** What the setters of a year, a month and a day do to any reference
    date: the three values are checked as a calendar date, and that date
    at midnight is the result. *)
Lemma applySetters_ymd y m d ref :
  applySetters
    [YearSetter y; MonthSetter m; DateSetter d; DateTimezoneSetter] ref
  = if (y >? 0) && ((m >=? 0) && (m <=? 11))
       && ((d >=? 1) && (d <=? DaysInMonth (InLeapYearB y) m))
    then Some (MakeDay y m d * msPerDay) else None.
Proof.
  cbn [applySetters]. rewrite set_YearSetter.
  cbn [validate]. destruct (y >? 0); [|reflexivity].
  destruct ((m >=? 0) && (m <=? 11)) eqn:Em; [|reflexivity].
  assert (Hm : 0 <= m <= 11) by lia.
  assert (E1 : set (MonthSetter m) (MakeDay y 0 1 * msPerDay)
               = MakeDay y m 1 * msPerDay).
  { unfold set, setMonth. rewrite setHours_midnight.
    rewrite Day_MakeDate by apply TimeWithinDay_range.
    destruct (fields_first y 0 ltac:(lia)) as (-> & _). reflexivity. }
  rewrite E1. unfold getFullYear, getMonth.
  destruct (fields_first y m Hm) as (Ey & Emo & _).
  rewrite Ey, Emo, nth_DAYS_IN_MONTH by exact Hm.
  cbn [andb].
  destruct ((d >=? 1) && (d <=? DaysInMonth (InLeapYearB y) m)); [|reflexivity].
  f_equal. unfold set, setDate. rewrite setHours_midnight.
  rewrite Day_MakeDate by apply TimeWithinDay_range.
  rewrite Ey, Emo. reflexivity.
Qed.

Lemma applySetters_ymd_Some y m d ref t :
  applySetters
    [YearSetter y; MonthSetter m; DateSetter d; DateTimezoneSetter] ref
  = Some t ->
  t = MakeDay y m d * msPerDay /\
  getFullYear t = y /\ getMonth t = m /\ getDate t = d /\
  0 < y /\ 0 <= m <= 11 /\ 1 <= d <= DaysInMonth (InLeapYearB y) m.
Proof.
  rewrite applySetters_ymd.
  destruct ((y >? 0) && ((m >=? 0) && (m <=? 11))
            && ((d >=? 1) && (d <=? DaysInMonth (InLeapYearB y) m))) eqn:E;
    [|discriminate].
  intros [= <-].
  assert (0 < y /\ 0 <= m <= 11 /\ 1 <= d <= DaysInMonth (InLeapYearB y) m)
    as (Hy & Hm & Hd) by lia.
  destruct (fields_MakeDay y m d (MakeDay y m d * msPerDay) Hm Hd
              (Day_midnight _)) as (? & ? & ?).
  unfold getFullYear, getMonth, getDate. repeat split; auto; lia.
Qed.

(** A date at midnight is rebuilt from its own fields. *)
Lemma MakeDay_own_fields t :
  TimeWithinDay t = 0 ->
  MakeDay (getFullYear t) (getMonth t) (getDate t) * msPerDay = t.
Proof.
  intros H. unfold getFullYear, getMonth, getDate.
  rewrite MakeDay_fields.
  pose proof (MakeDate_Day t) as E. unfold MakeDate in E. lia.
Qed.

Lemma own_fields_valid t :
  0 <= getMonth t <= 11 /\
  1 <= getDate t <= DaysInMonth (InLeapYearB (getFullYear t)) (getMonth t).
Proof.
  destruct (MonthDate_spec t) as (Hm & Hd & _). split; assumption.
Qed.

End SetterFacts.

(** ** Facts: the handlers *)

Section HandlerFacts.

(** The parser's answer depends on the text alone. *)
Lemma parseFlexibleDate_fixed value :
  exists r, forall w, fst (parseFlexibleDate value w) = Normal r.
Proof.
  destruct (parseFlexibleDate_spec value (world0 0)) as (t0 & r0 & F0 & _).
  exists r0. intros w.
  destruct (parseFlexibleDate_spec value w) as (t & r & F & E).
  rewrite E. cbn [fst].
  destruct (FirstMatch_functional _ _ _ _ _ _ F F0) as [_ ->]. reflexivity.
Qed.

Lemma parseFlexibleDate_any_world value r w0 :
  fst (parseFlexibleDate value w0) = Normal r ->
  forall w, fst (parseFlexibleDate value w) = Normal r.
Proof.
  intros H w. destruct (parseFlexibleDate_fixed value) as [r' Hr'].
  rewrite Hr' in H. injection H as <-. apply Hr'.
Qed.

Lemma parse_any_ref f s r :
  In f DATE_FORMATS -> parse s f 0 ro = Normal r ->
  forall ref, parse s f ref ro = Normal r.
Proof.
  intros Hf H ref. destruct (parse_DATE_FORMATS f s Hf) as [r' Hr'].
  rewrite Hr' in H. injection H as <-. apply Hr'.
Qed.

Lemma FirstMatch_run value tried r w :
  FirstMatch value DATE_FORMATS tried r ->
  parseFlexibleDate value w
  = (Normal r, after w (List.length tried) (map (pair value) tried)).
Proof.
  intros F. destruct (parseFlexibleDate_spec value w) as (t & r' & F' & E).
  destruct (FirstMatch_functional _ _ _ _ _ _ F F') as [-> ->]. exact E.
Qed.

Lemma trim_whitespace s : hasNonWhiteSpace s = false -> trim s = "".
Proof.
  unfold trim. induction s as [|c s IH]; intros H; [reflexivity|].
  cbn [hasNonWhiteSpace] in H. apply orb_false_iff in H. destruct H as [Hc Hs].
  apply negb_false_iff in Hc. cbn [trimStart]. rewrite Hc. auto.
Qed.

Lemma parse_empty f :
  In f DATE_FORMATS -> forall ref, parse "" f ref ro = Normal None.
Proof. intros Hf ref. each_format Hf; reflexivity. Qed.

Lemma FirstMatch_empty : FirstMatch "" DATE_FORMATS DATE_FORMATS None.
Proof. apply FirstMatch_all_fail. intros f Hf. apply parse_empty. exact Hf. Qed.

Lemma handleSearch_run st w tried r :
  inputValue st <> "" ->
  FirstMatch (trim (inputValue st)) DATE_FORMATS tried r ->
  handleSearch st w
  = (Normal
       match r with
       | Some d =>
           {| selectedDate := d; inputValue := ""; isOpen := isOpen st;
              error := None |}
       | None =>
           {| selectedDate := selectedDate st; inputValue := inputValue st;
              isOpen := isOpen st;
              error := Some "Invalid date. Please use a valid format." |}
       end,
     after w (List.length tried)
       (map (pair (trim (inputValue st))) tried)).
Proof.
  intros Hne F. unfold handleSearch.
  destruct (inputValue st) as [|c s] eqn:E; [contradiction|].
  unfold bind. rewrite (FirstMatch_run _ _ _ w F).
  destruct r; reflexivity.
Qed.

Lemma format_ddMMyyyy d locale :
  format d "dd.MM.yyyy" locale
  = Normal (addLeadingZeros (getDate d) 2 ++ "." ++
            addLeadingZeros (getMonth d + 1) 2 ++ "." ++
            addLeadingZeros (if getFullYear d >? 0 then getFullYear d
                             else 1 - getFullYear d) 4 ++ "").
Proof. reflexivity. Qed.

Lemma onBlur_run st w tried r :
  inputValue st <> "" ->
  FirstMatch (trim (inputValue st)) DATE_FORMATS tried r ->
  exists st',
    onBlur st w
    = (Normal st',
       after w (List.length tried)
         (map (pair (trim (inputValue st))) tried)) /\
    match r with
    | Some d =>
        exists text,
          format d "dd.MM.yyyy" enUS = Normal text /\
          st' = {| selectedDate := selectedDate st; inputValue := text;
                   isOpen := isOpen st; error := None |}
    | None => st' = st
    end.
Proof.
  intros Hne F. unfold onBlur.
  destruct (inputValue st) as [|c s] eqn:E; [contradiction|].
  unfold bind. rewrite (FirstMatch_run _ _ _ w F).
  destruct r as [d|].
  - rewrite format_ddMMyyyy. eexists. split; [reflexivity|].
    eexists. split; reflexivity.
  - eexists. split; reflexivity.
Qed.

End HandlerFacts.

(** ** Facts: printed numbers and the numeric parsers *)

(** Decides comparisons of code units left by unfolding the character
    classes. *)
Ltac code_lia :=
  unfold isChar, isDigit, digitValue in *;
  repeat match goal with
    | H : context [?a <=? ?b] |- _ => destruct (Z.leb_spec a b)
    | |- context [?a <=? ?b] => destruct (Z.leb_spec a b)
    end;
  cbn [andb orb negb] in *; try discriminate; try reflexivity; try lia.

Section FieldFacts.

Lemma Z_range_check (P : Z -> bool) (n : Z) :
  forallb P (map Z.of_nat (seq 0 (Z.to_nat n))) = true ->
  forall v, 0 <= v < n -> P v = true.
Proof.
  intros H v Hv. rewrite forallb_forall in H. apply H.
  apply in_map_iff. exists (Z.to_nat v). split; [lia|]. apply in_seq. lia.
Qed.

(** *** Numbers as [format] prints them *)

Lemma pad2_shape v :
  0 <= v < 100 ->
  exists a b,
    addLeadingZeros v 2 = String a (String b "") /\
    isDigit a = true /\ isDigit b = true /\
    parseInt (String a (String b "")) = v.
Proof.
  intros Hv.
  pose proof (Z_range_check
    (fun v => match addLeadingZeros v 2 with
              | String a (String b "") =>
                  isDigit a && isDigit b
                  && (parseInt (String a (String b "")) =? v)
              | _ => false
              end) 100 ltac:(vm_compute; reflexivity) v Hv) as H.
  cbv beta in H.
  destruct (addLeadingZeros v 2) as [|a [|b [|? ?]]]; try discriminate.
  apply andb_true_iff in H. destruct H as [H H3].
  apply andb_true_iff in H. destruct H as [H1 H2].
  exists a, b. repeat split; auto. apply Z.eqb_eq. exact H3.
Qed.

Lemma pad4_shape v :
  0 <= v < 10000 ->
  exists a b c d,
    addLeadingZeros v 4 = String a (String b (String c (String d ""))) /\
    isDigit a = true /\ isDigit b = true /\
    isDigit c = true /\ isDigit d = true /\
    parseInt (String a (String b (String c (String d "")))) = v.
Proof.
  intros Hv.
  pose proof (Z_range_check
    (fun v => match addLeadingZeros v 4 with
              | String a (String b (String c (String d ""))) =>
                  isDigit a && isDigit b && isDigit c && isDigit d
                  && (parseInt (String a (String b (String c (String d ""))))
                      =? v)
              | _ => false
              end) 10000 ltac:(vm_compute; reflexivity) v Hv) as H.
  cbv beta in H.
  destruct (addLeadingZeros v 4) as [|a [|b [|c [|d [|? ?]]]]];
    try discriminate.
  apply andb_true_iff in H. destruct H as [H H5].
  apply andb_true_iff in H. destruct H as [H H4].
  apply andb_true_iff in H. destruct H as [H H3].
  apply andb_true_iff in H. destruct H as [H1 H2].
  exists a, b, c, d. repeat split; auto. apply Z.eqb_eq. exact H5.
Qed.

(** One or two digits, as the tokens [d] and [M] print a number below 100. *)
Lemma pad1_shape v :
  0 <= v < 100 ->
  (exists a, addLeadingZeros v 1 = String a "" /\ isDigit a = true /\
             parseInt (String a "") = v) \/
  (exists a b, addLeadingZeros v 1 = String a (String b "") /\
               isDigit a = true /\ isDigit b = true /\
               parseInt (String a (String b "")) = v).
Proof.
  intros Hv.
  pose proof (Z_range_check
    (fun v => match addLeadingZeros v 1 with
              | String a "" => isDigit a && (parseInt (String a "") =? v)
              | String a (String b "") =>
                  isDigit a && isDigit b
                  && (parseInt (String a (String b "")) =? v)
              | _ => false
              end) 100 ltac:(vm_compute; reflexivity) v Hv) as H.
  cbv beta in H.
  destruct (addLeadingZeros v 1) as [|a [|b [|? ?]]]; try discriminate.
  - left. apply andb_true_iff in H. destruct H as [H1 H2].
    exists a. repeat split; auto. apply Z.eqb_eq. exact H2.
  - right. apply andb_true_iff in H. destruct H as [H H3].
    apply andb_true_iff in H. destruct H as [H1 H2].
    exists a, b. repeat split; auto. apply Z.eqb_eq. exact H3.
Qed.

(** *** The numeric parsers on digits *)

Lemma parseNDigits_2_2 a b r :
  isDigit a = true -> isDigit b = true ->
  parseNDigits 2 (String a (String b r))
  = Some (parseInt (String a (String b "")), r).
Proof.
  intros Ha Hb. unfold parseNDigits. cbn [takeDigits]. rewrite Ha, Hb.
  reflexivity.
Qed.

Lemma parseNDigits_2_1 a r :
  isDigit a = true -> startsWithDigit r = false ->
  parseNDigits 2 (String a r) = Some (parseInt (String a ""), r).
Proof.
  intros Ha Hr. unfold parseNDigits. cbn [takeDigits]. rewrite Ha.
  destruct r as [|c r]; [reflexivity|].
  cbn [startsWithDigit] in Hr. rewrite Hr. reflexivity.
Qed.

Lemma parseNDigits_4_4 a b c d r :
  isDigit a = true -> isDigit b = true ->
  isDigit c = true -> isDigit d = true ->
  parseNDigits 4 (String a (String b (String c (String d r))))
  = Some (parseInt (String a (String b (String c (String d "")))), r).
Proof.
  intros Ha Hb Hc Hd. unfold parseNDigits. cbn [takeDigits].
  rewrite Ha, Hb, Hc, Hd. reflexivity.
Qed.

Lemma parseInt_2 a b :
  parseInt (String a (String b "")) = 10 * digitValue a + digitValue b.
Proof. unfold parseInt. cbn [parseIntFrom]. lia. Qed.

Lemma matchDate_2 a b r :
  isDigit a = true -> isDigit b = true ->
  parseInt (String a (String b "")) <= 31 ->
  parseNumericPattern (matchDate (String a (String b r)))
  = Some (parseInt (String a (String b "")), r).
Proof.
  intros Ha Hb Hv. rewrite parseInt_2 in Hv. unfold matchDate.
  destruct (isChar a 51 51 && isChar b 48 49) eqn:E1; [reflexivity|].
  rewrite Hb, andb_true_r.
  destruct (isChar a 48 50) eqn:E2; [reflexivity|].
  exfalso. clear - Ha Hb Hv E1 E2. code_lia.
Qed.

Lemma matchDate_1 a r :
  isDigit a = true -> startsWithDigit r = false ->
  parseNumericPattern (matchDate (String a r))
  = Some (parseInt (String a ""), r).
Proof.
  intros Ha Hr. unfold matchDate. destruct r as [|c r].
  - rewrite Ha. reflexivity.
  - cbn [startsWithDigit] in Hr.
    assert (isChar c 48 49 = false) as -> by (clear - Hr; code_lia).
    rewrite Hr, !andb_false_r, Ha. reflexivity.
Qed.

(** On three digits or more the day pattern takes one or two of them: a
    digit follows. *)
Lemma matchDate_3 a b c r :
  isDigit a = true -> isDigit b = true -> isDigit c = true ->
  exists v x r',
    parseNumericPattern (matchDate (String a (String b (String c r))))
    = Some (v, String x r') /\ isDigit x = true.
Proof.
  intros Ha Hb Hc. unfold matchDate.
  destruct (isChar a 51 51 && isChar b 48 49);
    [do 3 eexists; split; [reflexivity|assumption]|].
  destruct (isChar a 48 50 && isDigit b);
    [do 3 eexists; split; [reflexivity|assumption]|].
  rewrite Ha. do 3 eexists; split; [reflexivity|assumption].
Qed.

Lemma matchMonth_2 a b r :
  isDigit a = true -> isDigit b = true ->
  parseInt (String a (String b "")) <= 12 ->
  parseNumericPattern (matchMonth (String a (String b r)))
  = Some (parseInt (String a (String b "")), r).
Proof.
  intros Ha Hb Hv. rewrite parseInt_2 in Hv. unfold matchMonth.
  destruct (isChar a 49 49 && isChar b 48 50) eqn:E1; [reflexivity|].
  rewrite Hb, andb_true_r.
  destruct (isChar a 48 48) eqn:E2; [reflexivity|].
  exfalso. clear - Ha Hb Hv E1 E2. code_lia.
Qed.

Lemma matchMonth_1 a r :
  isDigit a = true -> startsWithDigit r = false ->
  parseNumericPattern (matchMonth (String a r))
  = Some (parseInt (String a ""), r).
Proof.
  intros Ha Hr. unfold matchMonth. destruct r as [|c r].
  - rewrite Ha. reflexivity.
  - cbn [startsWithDigit] in Hr.
    assert (isChar c 48 50 = false) as -> by (clear - Hr; code_lia).
    rewrite Hr, !andb_false_r, Ha. reflexivity.
Qed.

(** *** Literals *)

Lemma stripPrefix_same c r : stripPrefix (String c "") (String c r) = Some r.
Proof. cbn [stripPrefix]. rewrite Ascii.eqb_refl. reflexivity. Qed.

Lemma stripPrefix_other c x r :
  Ascii.eqb c x = false -> stripPrefix (String c "") (String x r) = None.
Proof. intros H. cbn [stripPrefix]. rewrite H. reflexivity. Qed.

Lemma stripPrefix_digit c x r :
  isDigit c = false -> isDigit x = true ->
  stripPrefix (String c "") (String x r) = None.
Proof.
  intros Hc Hx. apply stripPrefix_other.
  destruct (Ascii.eqb_spec c x); [subst; congruence|reflexivity].
Qed.

End FieldFacts.

(** ** Facts: formatting a date and parsing it back *)

Section RoundTripFacts.

(** The setters of the fields of a midnight date give the date back. *)
Lemma applySetters_own_fields D ref :
  TimeWithinDay D = 0 -> 0 < getFullYear D ->
  applySetters
    [YearSetter (getFullYear D); MonthSetter (getMonth D);
     DateSetter (getDate D); DateTimezoneSetter] ref
  = Some D.
Proof.
  intros Hmid Hy. rewrite applySetters_ymd.
  destruct (own_fields_valid D) as (Hm & Hd).
  replace ((getFullYear D >? 0) && ((getMonth D >=? 0) && (getMonth D <=? 11))
           && ((getDate D >=? 1)
               && (getDate D <=? DaysInMonth (InLeapYearB (getFullYear D))
                                   (getMonth D))))
    with true by (symmetry; repeat (apply andb_true_iff; split); lia).
  rewrite MakeDay_own_fields by exact Hmid. reflexivity.
Qed.

(** The month token [MMMM] reads back every wide month name of [ro] that
    a space follows. *)
Lemma wide_month m r :
  0 <= m <= 11 ->
  orElse (matchLocaleMonth ro wide (localizeMonth ro wide m ++ String " " r))
    (orElse
       (matchLocaleMonth ro abbreviated
          (localizeMonth ro wide m ++ String " " r))
       (matchLocaleMonth ro narrow (localizeMonth ro wide m ++ String " " r)))
  = Some (m, String " " r).
Proof. intros Hm. month_cases m H; reflexivity. Qed.

End RoundTripFacts.

(** Unfolds [format] on a pattern given in full. *)
Ltac unfold_format :=
  unfold format;
  match goal with
  | |- context [plainFormat ?f] => change (plainFormat f) with true
  end;
  match goal with
  | |- context [tokenize ?f] =>
      let t := eval vm_compute in (tokenize f) in
      change (tokenize f) with t
  end;
  cbn -[addLeadingZeros localizeMonth append getDate getMonth getFullYear
        Z.add Z.sub Z.gtb].

(** Runs the unit parsers and the literals of an unfolded [parse] over a
    date string whose digits are known to be digits. *)
Ltac parse_steps :=
  repeat first
    [ rewrite parseNDigits_2_2 by assumption
    | rewrite parseNDigits_4_4 by assumption
    | rewrite parseNDigits_2_1 by (assumption || reflexivity)
    | rewrite matchDate_2 by (assumption || lia)
    | rewrite matchDate_1 by (assumption || reflexivity)
    | rewrite matchMonth_2 by (assumption || lia)
    | rewrite matchMonth_1 by (assumption || reflexivity)
    | match goal with
      | |- context [parseNumericPattern
                      (matchDate (String ?a (String ?b (String ?c ?r))))] =>
          let E := fresh "E" in
          destruct (matchDate_3 a b c r) as (? & ? & ? & E & ?);
          [assumption | assumption | assumption | rewrite E]
      end
    | rewrite wide_month by assumption
    | rewrite stripPrefix_same
    | rewrite stripPrefix_digit by (reflexivity || assumption)
    | rewrite stripPrefix_other by reflexivity
    | progress cbn [mapValue]
    | progress cbv iota beta ].

Ltac fields D Hy :=
  let Hm := fresh "Hm" in
  let Hd := fresh "Hd" in
  pose proof (MonthFromTime_range D) as Hm; fold (getMonth D) in Hm;
  pose proof (DateFromTime_range D) as Hd; fold (getDate D) in Hd;
  replace (getFullYear D >? 0) with true by (symmetry; lia).

Ltac finish_hit :=
  change (hasNonWhiteSpace "") with false; cbv iota; cbn [app];
  rewrite ?uniquePrioritySetters_dmy, ?uniquePrioritySetters_ymd;
  repeat match goal with
    | H : parseInt ?s = _ |- context [parseInt ?s] => rewrite H
    end;
  rewrite ?Z.add_simpl_r;
  rewrite applySetters_own_fields by (auto; lia); reflexivity.

Ltac run_parse := intros ?ref; unfold_parse; parse_steps.

Ltac first_match :=
  unfold DATE_FORMATS;
  repeat first
    [ apply FirstMatch_miss; [solve [run_parse; reflexivity]|]
    | apply FirstMatch_hit; solve [run_parse; finish_hit] ].

Ltac day2 D :=
  let a := fresh "d" in let b := fresh "d" in
  let Ha := fresh "Hd" in let Hb := fresh "Hd" in let E := fresh "Ed" in
  destruct (pad2_shape (getDate D) ltac:(lia)) as (a & b & -> & Ha & Hb & E).
Ltac month2 D :=
  let a := fresh "m" in let b := fresh "m" in
  let Ha := fresh "Hm" in let Hb := fresh "Hm" in let E := fresh "Em" in
  destruct (pad2_shape (getMonth D + 1) ltac:(lia))
    as (a & b & -> & Ha & Hb & E).
Ltac year4 D :=
  let a := fresh "y" in let b := fresh "y" in
  let c := fresh "y" in let d := fresh "y" in
  let Ha := fresh "Hy" in let Hb := fresh "Hy" in
  let Hc := fresh "Hy" in let Hd := fresh "Hy" in let E := fresh "Ey" in
  destruct (pad4_shape (getFullYear D) ltac:(lia))
    as (a & b & c & d & -> & Ha & Hb & Hc & Hd & E).
Ltac day1 D :=
  let a := fresh "d" in let b := fresh "d" in
  let Ha := fresh "Hd" in let Hb := fresh "Hd" in let E := fresh "Ed" in
  destruct (pad1_shape (getDate D) ltac:(lia))
    as [(a & -> & Ha & E) | (a & b & -> & Ha & Hb & E)].
Ltac month1 D :=
  let a := fresh "m" in let b := fresh "m" in
  let Ha := fresh "Hm" in let Hb := fresh "Hm" in let E := fresh "Em" in
  destruct (pad1_shape (getMonth D + 1) ltac:(lia))
    as [(a & -> & Ha & E) | (a & b & -> & Ha & Hb & E)].

Section RoundTrip.

Lemma roundtrip_1 D :
  TimeWithinDay D = 0 -> 1 <= getFullYear D <= 9999 ->
  exists s tried,
    format D "dd.MM.yyyy" ro = Normal s /\
    FirstMatch s DATE_FORMATS tried (Some D).
Proof.
  intros Hmid Hy. unfold_format. fields D Hy.
  day2 D; month2 D; year4 D;
    (do 2 eexists; split; [reflexivity|]); cbn [append]; first_match.
Qed.

Lemma roundtrip_2 D :
  TimeWithinDay D = 0 -> 1 <= getFullYear D <= 9999 ->
  exists s tried,
    format D "dd-MM-yyyy" ro = Normal s /\
    FirstMatch s DATE_FORMATS tried (Some D).
Proof.
  intros Hmid Hy. unfold_format. fields D Hy.
  day2 D; month2 D; year4 D;
    (do 2 eexists; split; [reflexivity|]); cbn [append]; first_match.
Qed.

Lemma roundtrip_3 D :
  TimeWithinDay D = 0 -> 1 <= getFullYear D <= 9999 ->
  exists s tried,
    format D "dd/MM/yyyy" ro = Normal s /\
    FirstMatch s DATE_FORMATS tried (Some D).
Proof.
  intros Hmid Hy. unfold_format. fields D Hy.
  day2 D; month2 D; year4 D;
    (do 2 eexists; split; [reflexivity|]); cbn [append]; first_match.
Qed.

Lemma roundtrip_4 D :
  TimeWithinDay D = 0 -> 1 <= getFullYear D <= 9999 ->
  exists s tried,
    format D "d.M.yyyy" ro = Normal s /\
    FirstMatch s DATE_FORMATS tried (Some D).
Proof.
  intros Hmid Hy. unfold_format. fields D Hy.
  day1 D; month1 D; year4 D;
    (do 2 eexists; split; [reflexivity|]); cbn [append]; first_match.
Qed.

Lemma roundtrip_5 D :
  TimeWithinDay D = 0 -> 1 <= getFullYear D <= 9999 ->
  exists s tried,
    format D "d-M-yyyy" ro = Normal s /\
    FirstMatch s DATE_FORMATS tried (Some D).
Proof.
  intros Hmid Hy. unfold_format. fields D Hy.
  day1 D; month1 D; year4 D;
    (do 2 eexists; split; [reflexivity|]); cbn [append]; first_match.
Qed.

Lemma roundtrip_6 D :
  TimeWithinDay D = 0 -> 1 <= getFullYear D <= 9999 ->
  exists s tried,
    format D "d/M/yyyy" ro = Normal s /\
    FirstMatch s DATE_FORMATS tried (Some D).
Proof.
  intros Hmid Hy. unfold_format. fields D Hy.
  day1 D; month1 D; year4 D;
    (do 2 eexists; split; [reflexivity|]); cbn [append]; first_match.
Qed.

Lemma roundtrip_7 D :
  TimeWithinDay D = 0 -> 1 <= getFullYear D <= 9999 ->
  exists s tried,
    format D "dd MMMM yyyy" ro = Normal s /\
    FirstMatch s DATE_FORMATS tried (Some D).
Proof.
  intros Hmid Hy. unfold_format. fields D Hy.
  day2 D; year4 D;
    (do 2 eexists; split; [reflexivity|]); cbn [append]; first_match.
Qed.

Lemma roundtrip_8 D :
  TimeWithinDay D = 0 -> 1 <= getFullYear D <= 9999 ->
  exists s tried,
    format D "d MMMM yyyy" ro = Normal s /\
    FirstMatch s DATE_FORMATS tried (Some D).
Proof.
  intros Hmid Hy. unfold_format. fields D Hy.
  day1 D; year4 D;
    (do 2 eexists; split; [reflexivity|]); cbn [append]; first_match.
Qed.

Lemma roundtrip_9 D :
  TimeWithinDay D = 0 -> 1 <= getFullYear D <= 9999 ->
  exists s tried,
    format D "yyyy-MM-dd" ro = Normal s /\
    FirstMatch s DATE_FORMATS tried (Some D).
Proof.
  intros Hmid Hy. unfold_format. fields D Hy.
  day2 D; month2 D; year4 D;
    (do 2 eexists; split; [reflexivity|]); cbn [append]; first_match.
Qed.

Lemma roundtrip_10 D :
  TimeWithinDay D = 0 -> 1 <= getFullYear D <= 9999 ->
  exists s tried,
    format D "yyyy/MM/dd" ro = Normal s /\
    FirstMatch s DATE_FORMATS tried (Some D).
Proof.
  intros Hmid Hy. unfold_format. fields D Hy.
  day2 D; month2 D; year4 D;
    (do 2 eexists; split; [reflexivity|]); cbn [append]; first_match.
Qed.

End RoundTrip.

(** ** Facts: what a parsed date holds *)

Section NoWrap.

Lemma Normal_inj {A} (a b : A) : Normal a = Normal b -> a = b.
Proof. intros H. injection H as H. exact H. Qed.

(** A date that [parse] returns carries exactly the year, the month and
    the day its parsers read from the text, and it is a midnight: no value
    is carried over into a neighbouring month or year. *)
Lemma parse_no_wrap value f ref t :
  In f DATE_FORMATS ->
  parse value f ref ro = Normal (Some t) ->
  exists setters,
    runTokens (tokenize f) value [] [DateTimezoneSetter] ro
    = Normal (Some setters) /\
    In (YearSetter (getFullYear t)) setters /\
    In (MonthSetter (getMonth t)) setters /\
    In (DateSetter (getDate t)) setters /\
    TimeWithinDay t = 0.
Proof.
  intros Hf. each_format Hf.
  all: unfold_parse;
    split_parse; try discriminate;
    rewrite ?uniquePrioritySetters_dmy, ?uniquePrioritySetters_ymd;
    intros H; apply Normal_inj in H; apply applySetters_ymd_Some in H;
    destruct H as (-> & Ey & Em & Ed & _);
    eexists; split; [reflexivity|];
    rewrite Ey, Em, Ed, TimeWithinDay_midnight; cbn [In]; auto 10.
Qed.

End NoWrap.

(** * The claims *)

(** Proves that a pattern is one of [DATE_FORMATS]. *)
Ltac in_formats :=
  unfold DATE_FORMATS; cbn [In]; repeat first [left; reflexivity | right].

(** Builds [FirstMatch] for a date string given in full, evaluating
    [parse] at one reference date. *)
Ltac eval_first_match :=
  unfold DATE_FORMATS;
  repeat first
    [ apply FirstMatch_nil
    | apply FirstMatch_miss;
      [intros ?ref; apply parse_any_ref;
       [in_formats | vm_compute; reflexivity]|]
    | apply FirstMatch_hit; intros ?ref; apply parse_any_ref;
      [in_formats | vm_compute; reflexivity] ].

Section Claims.

(** Known dates: the epoch is day 0, a Thursday; 29 February 2024 exists
    and 1 March 2024 is a Friday. *)
Example known_dates :
  ymd 1970 1 1 = 0 /\ getDay (ymd 1970 1 1) = 4 /\
  (getFullYear (ymd 2024 2 29), getMonth (ymd 2024 2 29),
   getDate (ymd 2024 2 29)) = (2024, 1, 29) /\
  ymd 2023 2 29 = ymd 2023 3 1 /\
  getDay (ymd 2024 3 1) = 5.
Proof. repeat split; vm_compute; reflexivity. Qed.

(** The two worked examples of the period breakdown: from 15 January 2020
    to 20 March 2024 it is 4 years, 2 months and 5 days; from a date to
    itself everything is 0. *)
Example period_2020_2024 :
  let now := ymd 2024 3 20 + 15 * msPerHour in
  let selectedDate := ymd 2020 1 15 in
  (years now selectedDate, months now selectedDate, days now selectedDate)
  = (4, 2, 5) /\
  (weeks now selectedDate, totalDays now selectedDate) = (218, 1526).
Proof. split; vm_compute; reflexivity. Qed.

Example period_same_day :
  let now := ymd 2024 3 20 in
  let selectedDate := ymd 2024 3 20 in
  (years now selectedDate, months now selectedDate, days now selectedDate,
   weeks now selectedDate, totalDays now selectedDate) = (0, 0, 0, 0, 0).
Proof. vm_compute. reflexivity. Qed.

(** C1 (the code departs from it).  The claim asks for month steps that
    never run over into the next month.  Selected date 31 January 2024,
    today 1 March 2024: the code finds 0 years and 1 month, then steps
    the running date by one month with [setMonth], which carries 31
    February over to 2 March 2024 instead of stopping at 29 February; the
    days are then counted back from 2 March, which gives -1. *)
Theorem month_step_overflows :
  let now := ymd 2024 3 1 in
  let selectedDate := ymd 2024 1 31 in
  years now selectedDate = 0 /\
  remainingAfterYears now selectedDate = ymd 2024 1 31 /\
  months now selectedDate = 1 /\
  remainingAfterMonths now selectedDate = ymd 2024 3 2 /\
  remainingAfterMonths now selectedDate <> ymd 2024 2 29 /\
  getMonth (remainingAfterMonths now selectedDate) = 2 /\
  days now selectedDate = -1.
Proof.
  cbv zeta. repeat split; try (vm_compute; reflexivity).
  vm_compute. discriminate.
Qed.

(** C2 (the code departs from it).  The claim asks for non-negative
    years, months and days whenever today is not before the selected
    date.  Selected date 31 January 2024, today 1 March 2024: the selected
    date is earlier, yet the code computes 0 years, 1 month and -1 days;
    with selected date 31 January 2023 and today 28 February 2023 it
    computes 0 years, 1 month and -3 days. *)
Theorem days_negative_after_month_end :
  (let now := ymd 2024 3 1 in
   let selectedDate := ymd 2024 1 31 in
   selectedDate <= today now /\
   years now selectedDate = 0 /\
   months now selectedDate = 1 /\
   days now selectedDate = -1) /\
  (let now := ymd 2023 2 28 in
   let selectedDate := ymd 2023 1 31 in
   selectedDate <= today now /\
   years now selectedDate = 0 /\
   months now selectedDate = 1 /\
   days now selectedDate = -3).
Proof.
  cbv zeta. repeat split; try (vm_compute; reflexivity);
    vm_compute; discriminate.
Qed.

(** C3.  [DATE_FORMATS] is the list of ten patterns in the stated order;
    on every input the parser tries them in that order, calling [parse]
    on each pattern up to the first that yields a valid date, and returns
    that date, or null when none does.  On ["15/03/2023"] the first two
    patterns fail and the third, [dd/MM/yyyy], gives 15 March 2023. *)
Theorem parseFlexibleDate_first_match :
  DATE_FORMATS
  = ["dd.MM.yyyy"; "dd-MM-yyyy"; "dd/MM/yyyy"; "d.M.yyyy"; "d-M-yyyy";
     "d/M/yyyy"; "dd MMMM yyyy"; "d MMMM yyyy"; "yyyy-MM-dd"; "yyyy/MM/dd"] /\
  (forall value w,
      exists tried r,
        FirstMatch value DATE_FORMATS tried r /\
        parseFlexibleDate value w
        = (Normal r, after w (List.length tried) (map (pair value) tried))) /\
  nth_error DATE_FORMATS 2 = Some "dd/MM/yyyy" /\
  FirstMatch "15/03/2023" DATE_FORMATS
    ["dd.MM.yyyy"; "dd-MM-yyyy"; "dd/MM/yyyy"] (Some (ymd 2023 3 15)) /\
  (getFullYear (ymd 2023 3 15), getMonth (ymd 2023 3 15),
   getDate (ymd 2023 3 15)) = (2023, 2, 15) /\
  (forall w,
      fst (parseFlexibleDate "15/03/2023" w) = Normal (Some (ymd 2023 3 15))).
Proof.
  split; [reflexivity|].
  split; [apply parseFlexibleDate_spec|].
  split; [reflexivity|].
  assert (F : FirstMatch "15/03/2023" DATE_FORMATS
                ["dd.MM.yyyy"; "dd-MM-yyyy"; "dd/MM/yyyy"]
                (Some (ymd 2023 3 15))) by eval_first_match.
  split; [exact F|].
  split; [vm_compute; reflexivity|].
  intros w. rewrite (FirstMatch_run _ _ _ w F). reflexivity.
Qed.

(** C4, as the claim states it, fails: 1 January 10000 printed with the
    first pattern of the list, before which no pattern is tried, gives
    ["01.01.10000"], which no pattern parses. *)
Lemma roundtrip_fails_year_10000 :
  nth_error DATE_FORMATS 0 = Some "dd.MM.yyyy" /\
  TimeWithinDay (ymd 10000 1 1) = 0 /\
  (getFullYear (ymd 10000 1 1), getMonth (ymd 10000 1 1),
   getDate (ymd 10000 1 1)) = (10000, 0, 1) /\
  format (ymd 10000 1 1) "dd.MM.yyyy" ro = Normal "01.01.10000" /\
  fst (parseFlexibleDate "01.01.10000" (world0 0)) = Normal None.
Proof. repeat split; vm_compute; reflexivity. Qed.

(** C4, amended.  For every pattern of [DATE_FORMATS] and every calendar
    date (a local midnight) whose year is between 1 and 9999, printing the
    date with the pattern, month names in the [ro] locale, and parsing the
    text gives the date back.  No proviso is needed: for these dates an
    earlier pattern either fails or reads the same date. *)
Theorem format_parse_roundtrip f D w :
  In f DATE_FORMATS ->
  TimeWithinDay D = 0 ->
  1 <= getFullYear D <= 9999 ->
  exists s,
    format D f ro = Normal s /\
    fst (parseFlexibleDate s w) = Normal (Some D).
Proof.
  intros Hf Hmid Hy.
  assert (R : exists s tried,
             format D f ro = Normal s /\
             FirstMatch s DATE_FORMATS tried (Some D)).
  { each_format Hf;
      [ apply roundtrip_1 | apply roundtrip_2 | apply roundtrip_3
      | apply roundtrip_4 | apply roundtrip_5 | apply roundtrip_6
      | apply roundtrip_7 | apply roundtrip_8 | apply roundtrip_9
      | apply roundtrip_10 ]; assumption. }
  destruct R as (s & tried & E & F). exists s. split; [exact E|].
  rewrite (FirstMatch_run _ _ _ w F). reflexivity.
Qed.

(** An instance: 29 February 2024 printed as [d MMMM yyyy]. *)
Lemma format_parse_roundtrip_witness :
  In "d MMMM yyyy" DATE_FORMATS /\
  TimeWithinDay (ymd 2024 2 29) = 0 /\
  1 <= getFullYear (ymd 2024 2 29) <= 9999 /\
  exists s,
    format (ymd 2024 2 29) "d MMMM yyyy" ro = Normal s /\
    fst (parseFlexibleDate s (world0 0)) = Normal (Some (ymd 2024 2 29)).
Proof.
  assert (H1 : In "d MMMM yyyy" DATE_FORMATS) by in_formats.
  assert (H2 : TimeWithinDay (ymd 2024 2 29) = 0) by (vm_compute; reflexivity).
  assert (H3 : 1 <= getFullYear (ymd 2024 2 29) <= 9999)
    by (vm_compute; split; discriminate).
  split; [exact H1|]. split; [exact H2|]. split; [exact H3|].
  exact (format_parse_roundtrip "d MMMM yyyy" (ymd 2024 2 29) (world0 0)
           H1 H2 H3).
Defined.

(** C5.  ["29.02.2024"] parses to 29 February 2024; ["29.02.2023"] and
    ["31.02.2024"] give null.  In general a date that [parse] returns for
    a pattern of the list has exactly the year, month and day that the
    parsers read: nothing is carried over. *)
Theorem parse_rejects_nonexistent_dates :
  (forall w,
      fst (parseFlexibleDate "29.02.2024" w) = Normal (Some (ymd 2024 2 29))) /\
  (getFullYear (ymd 2024 2 29), getMonth (ymd 2024 2 29),
   getDate (ymd 2024 2 29)) = (2024, 1, 29) /\
  (forall w, fst (parseFlexibleDate "29.02.2023" w) = Normal None) /\
  (forall w, fst (parseFlexibleDate "31.02.2024" w) = Normal None) /\
  (forall value f ref t,
      In f DATE_FORMATS ->
      parse value f ref ro = Normal (Some t) ->
      exists setters,
        runTokens (tokenize f) value [] [DateTimezoneSetter] ro
        = Normal (Some setters) /\
        In (YearSetter (getFullYear t)) setters /\
        In (MonthSetter (getMonth t)) setters /\
        In (DateSetter (getDate t)) setters /\
        TimeWithinDay t = 0).
Proof.
  split.
  { apply (parseFlexibleDate_any_world _ _ (world0 0)). vm_compute. reflexivity. }
  split; [vm_compute; reflexivity|].
  split.
  { apply (parseFlexibleDate_any_world _ _ (world0 0)). vm_compute. reflexivity. }
  split.
  { apply (parseFlexibleDate_any_world _ _ (world0 0)). vm_compute. reflexivity. }
  apply parse_no_wrap.
Qed.

(** C6, as the claim states it, fails: an input of three spaces is not
    short-circuited.  The search handler trims it to the empty string,
    calls [parse] on it with every pattern and reports an invalid date. *)
Lemma whitespace_input_is_parsed :
  hasNonWhiteSpace (inputValue (typed "   ")) = false /\
  parseCalls (snd (handleSearch (typed "   ") (world0 0)))
  = map (pair "") DATE_FORMATS /\
  fst (handleSearch (typed "   ") (world0 0))
  = Normal {| selectedDate := selectedDate (typed "   ");
              inputValue := "   "; isOpen := false;
              error := Some "Invalid date. Please use a valid format." |}.
Proof. repeat split; vm_compute; reflexivity. Qed.

(** C6, amended.  On an empty input the search handler and the blur
    handler return at once: the state is unchanged and [parse] is not
    called.  A non-empty input of white space only is not short-circuited:
    it is trimmed to the empty string, [parse] is called on it with each of
    the ten patterns, none matches, and the search handler sets the error
    message (the blur handler changes nothing). *)
Theorem empty_input_short_circuits st w :
  hasNonWhiteSpace (inputValue st) = false ->
  (inputValue st = "" ->
   handleSearch st w = (Normal st, w) /\ onBlur st w = (Normal st, w)) /\
  (inputValue st <> "" ->
   handleSearch st w
   = (Normal {| selectedDate := selectedDate st;
                inputValue := inputValue st; isOpen := isOpen st;
                error := Some "Invalid date. Please use a valid format." |},
      after w 10 (map (pair "") DATE_FORMATS)) /\
   onBlur st w = (Normal st, after w 10 (map (pair "") DATE_FORMATS))).
Proof.
  intros Hws. split.
  - intros E. unfold handleSearch, onBlur. rewrite E. split; reflexivity.
  - intros Hne. pose proof (trim_whitespace _ Hws) as Et.
    pose proof FirstMatch_empty as F. rewrite <- Et in F.
    split.
    + rewrite (handleSearch_run st w _ _ Hne F). rewrite Et. reflexivity.
    + destruct (onBlur_run st w _ _ Hne F) as (st' & E & ->).
      rewrite E, Et. reflexivity.
Qed.

(** An instance: an input of one space. *)
Lemma empty_input_short_circuits_witness :
  hasNonWhiteSpace (inputValue (typed " ")) = false /\
  (inputValue (typed " ") = "" ->
   handleSearch (typed " ") (world0 0) = (Normal (typed " "), world0 0) /\
   onBlur (typed " ") (world0 0) = (Normal (typed " "), world0 0)) /\
  (inputValue (typed " ") <> "" ->
   handleSearch (typed " ") (world0 0)
   = (Normal {| selectedDate := selectedDate (typed " ");
                inputValue := inputValue (typed " ");
                isOpen := isOpen (typed " ");
                error := Some "Invalid date. Please use a valid format." |},
      after (world0 0) 10 (map (pair "") DATE_FORMATS)) /\
   onBlur (typed " ") (world0 0)
   = (Normal (typed " "), after (world0 0) 10 (map (pair "") DATE_FORMATS))).
Proof.
  assert (H : hasNonWhiteSpace (inputValue (typed " ")) = false)
    by (vm_compute; reflexivity).
  split; [exact H|].
  exact (empty_input_short_circuits (typed " ") (world0 0) H).
Defined.

(** C7.  The week shown has exactly seven dates, each a local midnight,
    each one day after the one before; the first is [weekStart], a
    Monday, the last is a Sunday, and the first is the Monday on or before
    the selected date (the selected date falls within the seven days from
    it). *)
Theorem weekDays_monday_to_sunday (selectedDate : Date) :
  List.length (weekDays selectedDate) = 7%nat /\
  nth 0 (weekDays selectedDate) 0 = weekStart selectedDate /\
  (forall i, (i < 6)%nat ->
     nth (S i) (weekDays selectedDate) 0
     = nth i (weekDays selectedDate) 0 + msPerDay) /\
  (forall d, In d (weekDays selectedDate) -> TimeWithinDay d = 0) /\
  getDay (nth 0 (weekDays selectedDate) 0) = 1 /\
  getDay (nth 6 (weekDays selectedDate) 0) = 0 /\
  nth 0 (weekDays selectedDate) 0 <= selectedDate
    < nth 0 (weekDays selectedDate) 0 + 7 * msPerDay.
Proof.
  rewrite weekDays_eq. cbn [map nth List.length].
  destruct (weekStart_eq selectedDate) as (k & K1 & K2 & E).
  split; [reflexivity|].
  split; [lia|].
  split.
  { intros i Hi. do 6 (destruct i as [|i]; [cbn [nth]; lia|]). lia. }
  split.
  { intros d Hd. rewrite E in Hd.
    repeat (destruct Hd as [Hd | Hd];
            [subst d;
             rewrite <- Z.mul_add_distr_r; apply TimeWithinDay_midnight|]).
    destruct Hd. }
  unfold getDay, WeekDay. rewrite E.
  rewrite <- !Z.mul_add_distr_r, !Day_midnight.
  split; [rewrite Z.add_0_r; exact K2|].
  split; [Z.to_euclidean_division_equations; lia|].
  pose proof (MakeDate_Day selectedDate) as MD.
  pose proof (TimeWithinDay_range selectedDate) as TR.
  unfold MakeDate, msPerDay in *. lia.
Qed.

(** C8.  The parser's answer is a function of the text: whatever the
    clock reads, however often it was read before and whatever was parsed
    before, the call returns normally with the same result, which is null
    or one date. *)
Theorem parseFlexibleDate_deterministic (value : string) :
  exists r : option Date,
    forall w, fst (parseFlexibleDate value w) = Normal r.
Proof. apply parseFlexibleDate_fixed. Qed.

(** C9, as the claim states it, fails.  No pattern matches the empty
    input, yet the search handler returns at once and sets no message.
    No pattern matches [" 15.03.2023"] as entered either, because of the
    leading space; the handler parses the trimmed text, selects 15 March
    2023 and sets no message. *)
Lemma empty_input_gets_no_message :
  (forall f, In f DATE_FORMATS ->
     forall ref, parse (inputValue (typed "")) f ref ro = Normal None) /\
  handleSearch (typed "") (world0 0) = (Normal (typed ""), world0 0) /\
  error (typed "") = None /\
  (forall f, In f DATE_FORMATS ->
     forall ref,
       parse (inputValue (typed " 15.03.2023")) f ref ro = Normal None) /\
  fst (handleSearch (typed " 15.03.2023") (world0 0))
  = Normal {| selectedDate := ymd 2023 3 15; inputValue := "";
              isOpen := false; error := None |}.
Proof.
  split; [intros f Hf ref; apply parse_empty; exact Hf|].
  split; [reflexivity|].
  split; [reflexivity|].
  split; [intros f Hf ref; each_format Hf; reflexivity|].
  vm_compute. reflexivity.
Qed.

(** C9, amended.  For every non-empty input whose trimmed text no pattern
    matches, the parser returns null, not an exception, and the search
    handler sets the message "Invalid date. Please use a valid format." and
    leaves the input text, the selected date and the calendar popover as
    they were.  The parser and the search handler return normally on
    every input. *)
Theorem handleSearch_reports_no_match st w :
  inputValue st <> "" ->
  (forall f, In f DATE_FORMATS ->
     forall ref, parse (trim (inputValue st)) f ref ro = Normal None) ->
  fst (parseFlexibleDate (trim (inputValue st)) w) = Normal None /\
  fst (handleSearch st w)
  = Normal {| selectedDate := selectedDate st; inputValue := inputValue st;
              isOpen := isOpen st;
              error := Some "Invalid date. Please use a valid format." |} /\
  (forall value w', exists r, fst (parseFlexibleDate value w') = Normal r) /\
  (forall st' w', exists st'', fst (handleSearch st' w') = Normal st'').
Proof.
  intros Hne Hall.
  pose proof (FirstMatch_all_fail _ _ Hall) as F.
  split; [rewrite (FirstMatch_run _ _ _ w F); reflexivity|].
  split; [rewrite (handleSearch_run st w _ _ Hne F); reflexivity|].
  split.
  - intros value w'. destruct (parseFlexibleDate_fixed value) as [r Hr].
    exists r. apply Hr.
  - intros st' w'. destruct (inputValue st') as [|c s] eqn:Ei.
    + exists st'. unfold handleSearch. rewrite Ei. reflexivity.
    + destruct (parseFlexibleDate_spec (trim (inputValue st')) w')
        as (tried & r & F' & _).
      assert (Hne' : inputValue st' <> "") by (rewrite Ei; discriminate).
      rewrite (handleSearch_run st' w' _ _ Hne' F'). eexists. reflexivity.
Qed.

(** An instance: the input [" tomorrow "]. *)
Lemma handleSearch_reports_no_match_witness :
  inputValue (typed " tomorrow ") <> "" /\
  (forall f, In f DATE_FORMATS ->
     forall ref,
       parse (trim (inputValue (typed " tomorrow "))) f ref ro = Normal None) /\
  fst (parseFlexibleDate (trim (inputValue (typed " tomorrow "))) (world0 0))
  = Normal None /\
  fst (handleSearch (typed " tomorrow ") (world0 0))
  = Normal {| selectedDate := selectedDate (typed " tomorrow ");
              inputValue := inputValue (typed " tomorrow ");
              isOpen := isOpen (typed " tomorrow ");
              error := Some "Invalid date. Please use a valid format." |} /\
  (forall value w', exists r, fst (parseFlexibleDate value w') = Normal r) /\
  (forall st' w', exists st'', fst (handleSearch st' w') = Normal st'').
Proof.
  assert (H1 : inputValue (typed " tomorrow ") <> "") by discriminate.
  assert (H2 : forall f, In f DATE_FORMATS ->
             forall ref,
               parse (trim (inputValue (typed " tomorrow "))) f ref ro
               = Normal None).
  { intros f Hf ref. each_format Hf; reflexivity. }
  split; [exact H1|]. split; [exact H2|].
  exact (handleSearch_reports_no_match (typed " tomorrow ") (world0 0) H1 H2).
Defined.

(** C10.  When the input loses focus with a non-empty text: if the
    trimmed text parses under some pattern, the text becomes the parsed
    date printed as [dd.MM.yyyy] and the error is cleared, while the
    selected date stays; if it parses under none, the handler sets no
    message and the whole state stays as it was. *)
Theorem onBlur_rewrites_text_only st w :
  inputValue st <> "" ->
  (forall tried d,
      FirstMatch (trim (inputValue st)) DATE_FORMATS tried (Some d) ->
      exists text,
        format d "dd.MM.yyyy" enUS = Normal text /\
        fst (onBlur st w)
        = Normal {| selectedDate := selectedDate st; inputValue := text;
                    isOpen := isOpen st; error := None |}) /\
  (forall tried,
      FirstMatch (trim (inputValue st)) DATE_FORMATS tried None ->
      fst (onBlur st w) = Normal st).
Proof.
  intros Hne. split.
  - intros tried d F.
    destruct (onBlur_run st w _ _ Hne F) as (st' & E & text & Et & ->).
    exists text. split; [exact Et|]. rewrite E. reflexivity.
  - intros tried F.
    destruct (onBlur_run st w _ _ Hne F) as (st' & E & ->).
    rewrite E. reflexivity.
Qed.

(** An instance: the input [" 1.2.2024 "]. *)
Lemma onBlur_rewrites_text_only_witness :
  inputValue (typed " 1.2.2024 ") <> "" /\
  (forall tried d,
      FirstMatch (trim (inputValue (typed " 1.2.2024 "))) DATE_FORMATS tried
        (Some d) ->
      exists text,
        format d "dd.MM.yyyy" enUS = Normal text /\
        fst (onBlur (typed " 1.2.2024 ") (world0 0))
        = Normal {| selectedDate := selectedDate (typed " 1.2.2024 ");
                    inputValue := text;
                    isOpen := isOpen (typed " 1.2.2024 "); error := None |}) /\
  (forall tried,
      FirstMatch (trim (inputValue (typed " 1.2.2024 "))) DATE_FORMATS tried
        None ->
      fst (onBlur (typed " 1.2.2024 ") (world0 0))
      = Normal (typed " 1.2.2024 ")).
Proof.
  assert (H : inputValue (typed " 1.2.2024 ") <> "") by discriminate.
  split; [exact H|].
  exact (onBlur_rewrites_text_only (typed " 1.2.2024 ") (world0 0) H).
Defined.

End Claims.


(** ** Facts: the order of dates and their fields *)

Section OrderFacts.

(** The day number in terms of the fields. *)
Lemma Day_fields t :
  Day t = DayFromYear (YearFromTime t)
          + DaysBeforeMonth (MonthFromTime t) (InLeapYear t)
          + DateFromTime t - 1.
Proof.
  destruct (MonthDate_spec t) as (_ & _ & E). unfold DayWithinYear in E. lia.
Qed.

Lemma Day_lt_year a b : YearFromTime a < YearFromTime b -> Day a < Day b.
Proof.
  intros H. unfold YearFromTime in *.
  pose proof (YearFromDay_spec (Day a)) as Sa.
  pose proof (YearFromDay_spec (Day b)) as Sb.
  pose proof (DayFromYear_mono (YearFromDay (Day a) + 1) (YearFromDay (Day b))
                ltac:(lia)).
  lia.
Qed.

Lemma Day_lt_month a b :
  YearFromTime a = YearFromTime b -> MonthFromTime a < MonthFromTime b ->
  Day a < Day b.
Proof.
  intros Ey Hm. rewrite (Day_fields a), (Day_fields b).
  destruct (MonthDate_spec a) as (Ra & Da & _).
  destruct (MonthDate_spec b) as (Rb & Db & _).
  unfold InLeapYear in *. rewrite Ey in *.
  set (ma := MonthFromTime a) in *. set (mb := MonthFromTime b) in *.
  clearbody ma mb.
  destruct (InLeapYearB (YearFromTime b));
    month_cases ma Ha; cbn [DaysInMonth DaysBeforeMonth] in *;
    month_cases mb Hb; cbn [DaysInMonth DaysBeforeMonth] in *; lia.
Qed.

Lemma Day_date a b :
  YearFromTime a = YearFromTime b -> MonthFromTime a = MonthFromTime b ->
  Day a - Day b = DateFromTime a - DateFromTime b.
Proof.
  intros Ey Em. rewrite (Day_fields a), (Day_fields b).
  unfold InLeapYear. rewrite Ey, Em. lia.
Qed.

(** The time within the day in terms of the clock fields. *)
Lemma time_fields t :
  TimeWithinDay t
  = getHours t * msPerHour + getMinutes t * msPerMinute
    + getSeconds t * msPerSecond + getMilliseconds t /\
  0 <= getHours t < 24 /\ 0 <= getMinutes t < 60 /\
  0 <= getSeconds t < 60 /\ 0 <= getMilliseconds t < 1000.
Proof.
  unfold getHours, getMinutes, getSeconds, getMilliseconds,
    HourFromTime, MinFromTime, SecFromTime, msFromTime, TimeWithinDay,
    msPerHour, msPerMinute, msPerSecond, msPerDay.
  Z.to_euclidean_division_equations; lia.
Qed.

(** The comparison field by field is the comparison of the time values. *)
Lemma compareLocalAsc_compareAsc a b : compareLocalAsc a b = compareAsc a b.
Proof.
  unfold compareLocalAsc, compareAsc, getTime, firstNonZero,
    getFullYear, getMonth, getDate.
  pose proof (MakeDate_Day a) as Ea. pose proof (MakeDate_Day b) as Eb.
  pose proof (TimeWithinDay_range a) as Ta.
  pose proof (TimeWithinDay_range b) as Tb.
  unfold MakeDate in *.
  destruct (Z.eqb_spec (YearFromTime a - YearFromTime b) 0) as [Hy|Hy].
  2:{ assert (Day a < Day b \/ Day b < Day a) as [L|L].
      { destruct (Z.lt_trichotomy (YearFromTime a) (YearFromTime b))
          as [L|[L|L]]; [left|lia|right]; apply Day_lt_year; lia. }
      - assert (YearFromTime a < YearFromTime b).
        { destruct (Z.lt_trichotomy (YearFromTime a) (YearFromTime b))
            as [?|[?|G]]; [assumption|lia|].
          apply Day_lt_year in G. lia. }
        cbv zeta. 
        destruct (Z.ltb_spec (YearFromTime a - YearFromTime b) 0); [|lia].
        destruct (Z.ltb_spec (a - b) 0); [reflexivity|].
        unfold msPerDay in *. lia.
      - assert (YearFromTime b < YearFromTime a).
        { destruct (Z.lt_trichotomy (YearFromTime a) (YearFromTime b))
            as [G|[?|?]]; [|lia|assumption].
          apply Day_lt_year in G. lia. }
        cbv zeta.
        destruct (Z.ltb_spec (YearFromTime a - YearFromTime b) 0); [lia|].
        destruct (Z.gtb_spec (YearFromTime a - YearFromTime b) 0); [|lia].
        destruct (Z.ltb_spec (a - b) 0); [unfold msPerDay in *; lia|].
        destruct (Z.gtb_spec (a - b) 0); [reflexivity|].
        unfold msPerDay in *. lia. }
  assert (Ey : YearFromTime a = YearFromTime b) by lia.
  destruct (Z.eqb_spec (MonthFromTime a - MonthFromTime b) 0) as [Hm|Hm].
  2:{ cbv zeta.
      destruct (Z.lt_trichotomy (MonthFromTime a) (MonthFromTime b))
        as [L|[L|L]]; [|lia|].
      - pose proof (Day_lt_month a b Ey L).
        destruct (Z.ltb_spec (MonthFromTime a - MonthFromTime b) 0); [|lia].
        destruct (Z.ltb_spec (a - b) 0); [reflexivity|].
        unfold msPerDay in *. lia.
      - pose proof (Day_lt_month b a (eq_sym Ey) L).
        destruct (Z.ltb_spec (MonthFromTime a - MonthFromTime b) 0); [lia|].
        destruct (Z.gtb_spec (MonthFromTime a - MonthFromTime b) 0); [|lia].
        destruct (Z.ltb_spec (a - b) 0); [unfold msPerDay in *; lia|].
        destruct (Z.gtb_spec (a - b) 0); [reflexivity|].
        unfold msPerDay in *. lia. }
  assert (Em : MonthFromTime a = MonthFromTime b) by lia.
  pose proof (Day_date a b Ey Em) as Ed.
  destruct (time_fields a) as (Fa & ? & ? & ? & ?).
  destruct (time_fields b) as (Fb & ? & ? & ? & ?).
  unfold msPerHour, msPerMinute, msPerSecond, msPerDay in *.
  set (ha := getHours a) in *. set (hb := getHours b) in *.
  set (ia := getMinutes a) in *. set (ib := getMinutes b) in *.
  set (sa := getSeconds a) in *. set (sb := getSeconds b) in *.
  set (ma := getMilliseconds a) in *. set (mb := getMilliseconds b) in *.
  set (da := DateFromTime a) in *. set (db := DateFromTime b) in *.
  clearbody ha hb ia ib sa sb ma mb da db.
  cbv zeta.
  repeat match goal with
    | |- context [?x =? 0] => destruct (Z.eqb_spec x 0)
    end;
    repeat match goal with
      | |- context [?x <? 0] => destruct (Z.ltb_spec x 0)
      | |- context [?x >? 0] => destruct (Z.gtb_spec x 0)
      end;
    try reflexivity; lia.
Qed.

End OrderFacts.


Section DifferenceFacts.

Lemma differenceInCalendarDays_Day a b :
  differenceInCalendarDays a b = Day a - Day b.
Proof.
  unfold differenceInCalendarDays, startOfDay, getTime.
  rewrite !setHours_midnight.
  replace (Day a * msPerDay - Day b * msPerDay)
    with ((Day a - Day b) * msPerDay) by lia.
  apply Z.div_mul. unfold msPerDay. lia.
Qed.

Lemma setDate_sub t k : setDate t (getDate t - k) = t - k * msPerDay.
Proof.
  replace (getDate t - k) with (getDate t + - k) by lia.
  rewrite setDate_shift. lia.
Qed.

(** [differenceInDays] counts the whole days between two time values,
    towards zero. *)
Lemma differenceInDays_quot a b :
  differenceInDays a b = Z.quot (a - b) msPerDay.
Proof.
  unfold differenceInDays. cbv zeta.
  rewrite setDate_sub, !compareLocalAsc_compareAsc,
    differenceInCalendarDays_Day.
  unfold compareAsc, getTime.
  pose proof (MakeDate_Day a) as Ea. pose proof (MakeDate_Day b) as Eb.
  pose proof (TimeWithinDay_range a) as Ta.
  pose proof (TimeWithinDay_range b) as Tb.
  unfold MakeDate, msPerDay in *.
  set (da := Day a) in *. set (db := Day b) in *.
  set (ta := TimeWithinDay a) in *. set (tb := TimeWithinDay b) in *.
  clearbody da db ta tb. subst a b.
  assert (Qp : forall x q r, 0 <= r < 86400000 -> 0 <= x ->
             x = q * 86400000 + r -> Z.quot x 86400000 = q).
  { intros x q r Hr Hx E. symmetry.
    apply (Z.quot_unique _ _ _ r); lia. }
  assert (Qn : forall x q r, 0 <= r < 86400000 -> x <= 0 ->
             x = q * 86400000 - r -> Z.quot x 86400000 = q).
  { intros x q r Hr Hx E.
    replace x with (- (- x)) by lia. rewrite Z.quot_opp_l by lia.
    rewrite (Qp (- x) (- q) r); lia. }
  destruct (Z.ltb_spec (da * 86400000 + ta - (db * 86400000 + tb)) 0) as [L|L].
  - assert (Hd : da <= db) by lia.
    rewrite (Z.abs_neq (da - db)) by lia.
    replace (da * 86400000 + ta - -1 * - (da - db) * 86400000
             - (db * 86400000 + tb)) with (ta - tb) by lia.
    destruct (Z.ltb_spec (ta - tb) 0);
      [|destruct (Z.gtb_spec (ta - tb) 0)];
      match goal with
      | |- context [?x =? ?y] => destruct (Z.eqb_spec x y); try lia
      end; symmetry.
    + apply (Qn _ _ (tb - ta)); lia.
    + apply (Qn _ _ (86400000 - (ta - tb))); lia.
    + apply (Qn _ _ 0); lia.
  - destruct (Z.gtb_spec (da * 86400000 + ta - (db * 86400000 + tb)) 0) as [G|G].
    + assert (Hd : db <= da) by lia.
      rewrite (Z.abs_eq (da - db)) by lia.
      replace (da * 86400000 + ta - 1 * (da - db) * 86400000
               - (db * 86400000 + tb)) with (ta - tb) by lia.
      destruct (Z.ltb_spec (ta - tb) 0);
        [|destruct (Z.gtb_spec (ta - tb) 0)];
        match goal with
        | |- context [?x =? ?y] => destruct (Z.eqb_spec x y); try lia
        end; symmetry.
      * apply (Qp _ _ (86400000 - (tb - ta))); lia.
      * apply (Qp _ _ (ta - tb)); lia.
      * apply (Qp _ _ 0); lia.
    + assert (E : da * 86400000 + ta - (db * 86400000 + tb) = 0) by lia.
      rewrite E. assert (da = db) by lia. subst db.
      rewrite Z.sub_diag. reflexivity.
Qed.

End DifferenceFacts.


Section PeriodFacts.

Lemma fields_same_day a b :
  Day a = Day b ->
  YearFromTime a = YearFromTime b /\ MonthFromTime a = MonthFromTime b /\
  DateFromTime a = DateFromTime b.
Proof.
  intros E.
  unfold DateFromTime, MonthFromTime, DayWithinYear, InLeapYear, YearFromTime.
  rewrite E. auto.
Qed.

Lemma setFullYear_same t :
  setFullYear t (getFullYear t) None None = t.
Proof.
  unfold setFullYear, getFullYear. rewrite MakeDay_fields.
  rewrite Z.sub_diag, Z.add_0_r. apply MakeDate_Day.
Qed.

Lemma setMonth_same t : setMonth t (getMonth t) None = t.
Proof.
  unfold setMonth, getMonth. rewrite MakeDay_fields.
  rewrite Z.sub_diag, Z.add_0_r. apply MakeDate_Day.
Qed.

Lemma quot_small_abs x d : - d < x < d -> Z.quot x d = 0.
Proof.
  intros H. destruct (Z_lt_le_dec x 0).
  - replace x with (- (- x)) by lia. rewrite Z.quot_opp_l by lia.
    rewrite Z.quot_small; lia.
  - apply Z.quot_small. lia.
Qed.

Lemma differenceInYears_same_day a b :
  Day a = Day b -> differenceInYears a b = 0.
Proof.
  intros E. destruct (fields_same_day a b E) as (Ey & Em & Ed).
  unfold differenceInYears, differenceInCalendarYears, getFullYear. cbv zeta.
  rewrite Ey, Z.sub_diag. cbn [Z.abs].
  unfold setFullYear. rewrite Em, Ed.
  unfold compareAsc, getTime, MakeDate.
  pose proof (MakeDate_Day a) as Ea. pose proof (MakeDate_Day b) as Eb.
  unfold MakeDate in *.
  set (x := MakeDay 1584 (MonthFromTime b) (DateFromTime b) * msPerDay).
  replace (x + TimeWithinDay a - (x + TimeWithinDay b)) with (a - b) by lia.
  clearbody x.
  destruct (Z.ltb_spec (a - b) 0); [reflexivity|].
  destruct (Z.gtb_spec (a - b) 0); [reflexivity|].
  replace (a - b) with 0 by lia. reflexivity.
Qed.

Lemma differenceInMonths_same_day a b :
  Day a = Day b -> differenceInMonths a b = 0.
Proof.
  intros E. destruct (fields_same_day a b E) as (Ey & Em & Ed).
  unfold differenceInMonths, differenceInCalendarMonths, getFullYear, getMonth.
  cbv zeta. rewrite Ey, Em, !Z.sub_diag. reflexivity.
Qed.

Lemma Day_today now : Day (today now) = Day now.
Proof. unfold today. rewrite setHours_midnight. apply Day_midnight. Qed.

End PeriodFacts.

Section PeriodExtras.

(** X1.  The totals count whole days and whole weeks from the selected
    date to the midnight that starts today, towards zero; for a selected
    date that is not after that midnight neither is negative. *)
Theorem totals_count_whole_days (now selectedDate : Date) :
  totalDays now selectedDate = Z.quot (today now - selectedDate) msPerDay /\
  weeks now selectedDate
  = Z.quot (today now - selectedDate) millisecondsInWeek /\
  (selectedDate <= today now ->
   0 <= totalDays now selectedDate /\ 0 <= weeks now selectedDate).
Proof.
  unfold totalDays, weeks, differenceInWeeks. rewrite differenceInDays_quot.
  split; [reflexivity|].
  assert (W : Z.quot (Z.quot (today now - selectedDate) msPerDay) 7
              = Z.quot (today now - selectedDate) millisecondsInWeek).
  { rewrite Z.quot_quot by (unfold msPerDay; lia). reflexivity. }
  split; [exact W|].
  intros H. rewrite W. split; apply Z.quot_pos;
    unfold msPerDay, millisecondsInWeek; lia.
Qed.

(** X2.  While the selected date lies on today's calendar day, whatever
    its time of day, the widget shows 0 years, 0 months, 0 days, 0 weeks
    and 0 total days. *)
Theorem same_day_shows_zero (now selectedDate : Date) :
  Day selectedDate = Day now ->
  years now selectedDate = 0 /\
  months now selectedDate = 0 /\
  days now selectedDate = 0 /\
  weeks now selectedDate = 0 /\
  totalDays now selectedDate = 0.
Proof.
  intros E.
  assert (Et : Day (today now) = Day selectedDate)
    by (rewrite Day_today; auto).
  assert (Hy : years now selectedDate = 0)
    by (apply differenceInYears_same_day; exact Et).
  assert (Ry : remainingAfterYears now selectedDate = selectedDate).
  { unfold remainingAfterYears. rewrite Hy, Z.add_0_r.
    apply setFullYear_same. }
  assert (Hm : months now selectedDate = 0).
  { unfold months. rewrite Ry. apply differenceInMonths_same_day. exact Et. }
  assert (Rm : remainingAfterMonths now selectedDate = selectedDate).
  { unfold remainingAfterMonths. cbv zeta. rewrite Ry, Hm, Z.add_0_r.
    apply setMonth_same. }
  assert (Hd : totalDays now selectedDate = 0).
  { unfold totalDays. rewrite differenceInDays_quot.
    apply quot_small_abs.
    pose proof (MakeDate_Day selectedDate) as Es.
    pose proof (MakeDate_Day (today now)) as En.
    pose proof (TimeWithinDay_range selectedDate).
    pose proof (TimeWithinDay_range (today now)).
    unfold MakeDate in *. rewrite Et in En. lia. }
  repeat split; auto.
  - unfold days. rewrite Rm. exact Hd.
  - unfold weeks, differenceInWeeks. fold (totalDays now selectedDate).
    rewrite Hd. reflexivity.
Qed.

(** An instance: selected at 15:00 on 20 March 2024, shown at 18:00. *)
Lemma same_day_shows_zero_witness :
  Day (ymd 2024 3 20 + 15 * msPerHour) = Day (ymd 2024 3 20 + 18 * msPerHour) /\
  years (ymd 2024 3 20 + 18 * msPerHour) (ymd 2024 3 20 + 15 * msPerHour) = 0 /\
  months (ymd 2024 3 20 + 18 * msPerHour) (ymd 2024 3 20 + 15 * msPerHour) = 0 /\
  days (ymd 2024 3 20 + 18 * msPerHour) (ymd 2024 3 20 + 15 * msPerHour) = 0 /\
  weeks (ymd 2024 3 20 + 18 * msPerHour) (ymd 2024 3 20 + 15 * msPerHour) = 0 /\
  totalDays (ymd 2024 3 20 + 18 * msPerHour) (ymd 2024 3 20 + 15 * msPerHour)
  = 0.
Proof.
  assert (H : Day (ymd 2024 3 20 + 15 * msPerHour)
              = Day (ymd 2024 3 20 + 18 * msPerHour))
    by (vm_compute; reflexivity).
  split; [exact H|].
  exact (same_day_shows_zero _ _ H).
Defined.

End PeriodExtras.


Section WeekGridFacts.

(** [startOfWeek] in closed form: back to the last day whose weekday is
    [weekStartsOn], at midnight. *)
Lemma startOfWeek_eq t w :
  startOfWeek t w
  = (Day t - ((if getDay t <? w then 7 else 0) + getDay t - w)) * msPerDay.
Proof.
  unfold startOfWeek. cbv zeta.
  rewrite setDate_sub, setHours_midnight.
  replace (t - ((if getDay t <? w then 7 else 0) + getDay t - w) * msPerDay)
    with (t + - ((if getDay t <? w then 7 else 0) + getDay t - w) * msPerDay)
    by lia.
  rewrite Day_shift. f_equal; lia.
Qed.


Lemma addWeeks_eq t k : addWeeks t k = t + k * 7 * msPerDay.
Proof.
  unfold addWeeks, addDays.
  destruct (Z.eqb_spec (k * 7) 0) as [E|E]; [lia|apply setDate_shift].
Qed.



(** The week of a day of the grid is the grid's own week. *)
Lemma weekStart_of_grid_day t i :
  0 <= i <= 6 -> weekStart (weekStart t + i * msPerDay) = weekStart t.
Proof.
  intros Hi.
  destruct (weekStart_eq t) as (k & K1 & K2 & E).
  destruct (weekStart_eq (weekStart t + i * msPerDay)) as (k' & K1' & K2' & E').
  rewrite E', E. rewrite E in K2'.
  rewrite Day_shift, Day_midnight in *.
  assert (k' = i) by (Z.to_euclidean_division_equations; lia).
  subst k'. f_equal. lia.
Qed.

Lemma In_weekDays t d :
  In d (weekDays t) -> exists i, 0 <= i <= 6 /\ d = weekStart t + i * msPerDay.
Proof.
  rewrite weekDays_eq. cbn [map In].
  intros H.
  repeat (destruct H as [H|H];
          [eexists; split; [|symmetry; exact H]; lia|]).
  destruct H.
Qed.

End WeekGridFacts.

Section WeekGridExtras.



(** X5.  Exactly one cell of the week grid is marked as selected: the
    grid always contains the day of the selected date, once. *)
Theorem one_cell_is_selected (selectedDate : Date) :
  exists i, (i < 7)%nat /\
    isSelected selectedDate (nth i (weekDays selectedDate) 0) = true /\
    forall j, (j < 7)%nat ->
      isSelected selectedDate (nth j (weekDays selectedDate) 0) = true ->
      j = i.
Proof.
  destruct (weekStart_eq selectedDate) as (k & K1 & K2 & E).
  assert (S : forall j, (j < 7)%nat ->
            isSelected selectedDate (nth j (weekDays selectedDate) 0)
            = (Z.of_nat j =? k)).
  { intros j Hj.
    assert (N : nth j (weekDays selectedDate) 0
                = weekStart selectedDate + Z.of_nat j * msPerDay).
    { rewrite weekDays_eq.
      do 7 (destruct j as [|j]; [cbn [map nth]; f_equal|]); lia. }
    unfold isSelected, dayCompare, selectedCompare, getTime.
    rewrite N, !setHours_midnight, E, <- Z.mul_add_distr_r, Day_midnight.
    destruct (Z.eqb_spec (Z.of_nat j) k);
      destruct (Z.eqb_spec ((Day selectedDate - k + Z.of_nat j) * msPerDay)
                  (Day selectedDate * msPerDay));
      try reflexivity; unfold msPerDay in *; lia. }
  exists (Z.to_nat k). split; [lia|]. split.
  - rewrite S by lia. apply Z.eqb_eq. lia.
  - intros j Hj H. rewrite S in H by exact Hj. apply Z.eqb_eq in H. lia.
Qed.

(** X6.  Clicking a cell of the grid selects its day, clears the error
    and leaves the grid as it is: the same seven days are shown, and the
    clicked cell is the selected one. *)
Theorem dayClick_keeps_grid (day : Date) (st : AppState) (w : World) :
  In day (weekDays (selectedDate st)) ->
  exists st',
    dayClick day st w = (Normal st', w) /\
    selectedDate st' = day /\
    error st' = None /\
    format day "dd.MM.yyyy" enUS = Normal (inputValue st') /\
    weekDays (selectedDate st') = weekDays (selectedDate st) /\
    isSelected (selectedDate st') day = true.
Proof.
  intros Hin. unfold dayClick, bind, ret. rewrite format_ddMMyyyy.
  eexists. split; [reflexivity|]. cbn [selectedDate error inputValue].
  split; [reflexivity|]. split; [reflexivity|]. split; [reflexivity|].
  split.
  - destruct (In_weekDays _ _ Hin) as (i & Hi & ->).
    rewrite (weekDays_eq (weekStart _ + _)), weekDays_eq.
    rewrite weekStart_of_grid_day by exact Hi. reflexivity.
  - unfold isSelected, dayCompare, selectedCompare. apply Z.eqb_refl.
Qed.

(** An instance: the Wednesday of the week of 2 November 2026. *)
Lemma dayClick_keeps_grid_witness :
  In (ymd 2026 11 4) (weekDays (selectedDate (typed ""))) /\
  exists st',
    dayClick (ymd 2026 11 4) (typed "") (world0 0) = (Normal st', world0 0) /\
    selectedDate st' = ymd 2026 11 4 /\
    error st' = None /\
    format (ymd 2026 11 4) "dd.MM.yyyy" enUS = Normal (inputValue st') /\
    weekDays (selectedDate st') = weekDays (selectedDate (typed "")) /\
    isSelected (selectedDate st') (ymd 2026 11 4) = true.
Proof.
  assert (H : In (ymd 2026 11 4) (weekDays (selectedDate (typed ""))))
    by (vm_compute; tauto).
  split; [exact H|].
  exact (dayClick_keeps_grid (ymd 2026 11 4) (typed "") (world0 0) H).
Defined.

End WeekGridExtras.


(** Like [split_parse], keeping what each parser returned. *)
Ltac split_parse_eq :=
  repeat match goal with
    | |- context [parseNDigits ?n ?s] =>
        destruct (parseNDigits n s) as [[? ?]|] eqn:?; cbn [mapValue]
    | |- context [parseNumericPattern ?m] =>
        destruct (parseNumericPattern m) as [[? ?]|] eqn:?; cbn [mapValue]
    | |- context [stripPrefix ?p ?s] =>
        destruct (stripPrefix p s) as [?|] eqn:?
    | |- context [orElse ?a ?b] =>
        destruct (orElse a b) as [[? ?]|] eqn:?; cbn [mapValue]
    | |- context [hasNonWhiteSpace ?s] =>
        destruct (hasNonWhiteSpace s) eqn:?
    end.

Section ParsedDateFacts.


Lemma digitValue_range c : isDigit c = true -> 0 <= digitValue c <= 9.
Proof. intros H. code_lia. Qed.

Lemma parseIntFrom_takeDigits n :
  forall s acc ds r,
    takeDigits n s = (ds, r) -> 0 <= acc ->
    0 <= parseIntFrom acc ds < (acc + 1) * 10 ^ Z.of_nat n.
Proof.
  induction n as [|n IH]; intros s acc ds r E Hacc.
  - cbn [takeDigits] in E. injection E as <- <-. cbn [parseIntFrom].
    change (10 ^ Z.of_nat 0) with 1. lia.
  - assert (P : 10 ^ Z.of_nat (S n) = 10 * 10 ^ Z.of_nat n).
    { rewrite Nat2Z.inj_succ, Z.pow_succ_r by lia. reflexivity. }
    assert (0 < 10 ^ Z.of_nat n) by (apply Z.pow_pos_nonneg; lia).
    cbn [takeDigits] in E. destruct s as [|c s].
    + injection E as <- <-. cbn [parseIntFrom]. nia.
    + destruct (isDigit c) eqn:Hc.
      * destruct (takeDigits n s) as [ds' r'] eqn:E'.
        injection E as <- <-. cbn [parseIntFrom].
        pose proof (digitValue_range c Hc).
        pose proof (IH s (acc * 10 + digitValue c) ds' r' E' ltac:(lia)).
        nia.
      * injection E as <- <-. cbn [parseIntFrom]. nia.
Qed.

(** [parseNDigits n] reads a number below [10 ^ n]. *)
Lemma parseNDigits_range n s v r :
  parseNDigits n s = Some (v, r) -> 0 <= v < 10 ^ Z.of_nat n.
Proof.
  unfold parseNDigits. destruct (takeDigits n s) as [ds r'] eqn:E.
  destruct ds as [|c ds]; [discriminate|].
  cbn [parseNumericPattern]. intros [= <- <-].
  pose proof (parseIntFrom_takeDigits n s 0 _ _ E ltac:(lia)) as B.
  unfold parseInt. lia.
Qed.

(** What [parse] returns for a pattern of the list is a midnight in a
    year of at most four digits. *)
Lemma parse_result_range value f ref t :
  In f DATE_FORMATS ->
  parse value f ref ro = Normal (Some t) ->
  TimeWithinDay t = 0 /\ 1 <= getFullYear t <= 9999.
Proof.
  intros Hf. each_format Hf.
  all: unfold_parse; split_parse_eq; try discriminate;
    rewrite ?uniquePrioritySetters_dmy, ?uniquePrioritySetters_ymd;
    intros H; apply Normal_inj in H; apply applySetters_ymd_Some in H;
    destruct H as (-> & Ey & _ & _ & Hy & _);
    rewrite Ey, TimeWithinDay_midnight;
    match goal with
    | E : parseNDigits 4 _ = Some (?y, _) |- _ /\ 1 <= ?y <= _ =>
        apply parseNDigits_range in E; change (10 ^ Z.of_nat 4) with 10000 in E
    end; lia.
Qed.

(** The pattern that ends a successful [FirstMatch] parses the text. *)
Lemma FirstMatch_Some value formats tried d :
  FirstMatch value formats tried (Some d) ->
  In (last tried "") formats /\
  forall ref, parse value (last tried "") ref ro = Normal (Some d).
Proof.
  intros H. remember (Some d) as r eqn:Er.
  induction H as [|f fs d' Hd|f fs tried r Hn H IH]; [discriminate| |].
  - injection Er as ->. cbn [last]. split; [left; reflexivity|exact Hd].
  - destruct (IH Er) as (Hin & Hp).
    assert (tried <> []) by (intros ->; inversion H; subst; discriminate).
    destruct tried as [|g tried]; [contradiction|].
    change (last (f :: g :: tried) "") with (last (g :: tried) "").
    split; [right; exact Hin|exact Hp].
Qed.

End ParsedDateFacts.

Section ParsedDateExtras.



End ParsedDateExtras.


Section RedundantPatterns.

Lemma stripPrefix_char c s r :
  stripPrefix (String c "") s = Some r -> s = String c r.
Proof.
  destruct s as [|x s]; cbn [stripPrefix]; [discriminate|].
  destruct (Ascii.eqb_spec c x); [|discriminate].
  intros [= <-]. subst. reflexivity.
Qed.

(** Where a non-digit follows what the one-letter day pattern took, the
    two-letter pattern takes the same. *)
Lemma dd_reads_d s v c r :
  parseNumericPattern (matchDate s) = Some (v, String c r) ->
  isDigit c = false ->
  parseNDigits 2 s = Some (v, String c r).
Proof.
  unfold matchDate, parseNDigits. intros H Hc.
  destruct s as [|a [|b s]]; cbn [takeDigits].
  - discriminate.
  - destruct (isDigit a); [|discriminate]. discriminate.
  - destruct (isChar a 51 51 && isChar b 48 49) eqn:E1.
    { assert (isDigit a = true /\ isDigit b = true) as [-> ->]
        by (clear - E1; split; code_lia).
      exact H. }
    destruct (isChar a 48 50 && isDigit b) eqn:E2.
    { assert (isDigit a = true /\ isDigit b = true) as [-> ->]
        by (clear - E2; split; code_lia).
      exact H. }
    destruct (isDigit a) eqn:Ha; [|discriminate].
    cbn [parseNumericPattern] in H. injection H as <- <- <-.
    rewrite Hc. reflexivity.
Qed.

Lemma MM_reads_M s v c r :
  parseNumericPattern (matchMonth s) = Some (v, String c r) ->
  isDigit c = false ->
  parseNDigits 2 s = Some (v, String c r).
Proof.
  unfold matchMonth, parseNDigits. intros H Hc.
  destruct s as [|a [|b s]]; cbn [takeDigits].
  - discriminate.
  - destruct (isDigit a); [|discriminate]. discriminate.
  - destruct (isChar a 49 49 && isChar b 48 50) eqn:E1.
    { assert (isDigit a = true /\ isDigit b = true) as [-> ->]
        by (clear - E1; split; code_lia).
      exact H. }
    destruct (isChar a 48 48 && isDigit b) eqn:E2.
    { assert (isDigit a = true /\ isDigit b = true) as [-> ->]
        by (clear - E2; split; code_lia).
      exact H. }
    destruct (isDigit a) eqn:Ha; [|discriminate].
    cbn [parseNumericPattern] in H. injection H as <- <- <-.
    rewrite Hc. reflexivity.
Qed.

(** Turns what the one-letter pattern read into what the two-letter
    pattern reads, given the literal that followed. *)
Ltac two_letter :=
  repeat match goal with
    | E : parseNumericPattern (matchDate ?s) = Some (?v, ?r),
      L : stripPrefix (String ?c "") ?r = Some ?r' |- _ =>
        apply stripPrefix_char in L; subst r;
        apply dd_reads_d in E; [|reflexivity]
    | E : parseNumericPattern (matchMonth ?s) = Some (?v, ?r),
      L : stripPrefix (String ?c "") ?r = Some ?r' |- _ =>
        apply stripPrefix_char in L; subst r;
        apply MM_reads_M in E; [|reflexivity]
    end.

Ltac covered :=
  intros ref t;
  let G := fresh "G" in
  let EG := fresh "EG" in
  let H := fresh "H" in
  match goal with
  | |- _ -> ?g = _ => remember g as G eqn:EG
  end;
  unfold_parse; split_parse_eq; try discriminate;
  intros H; rewrite EG; clear EG G; two_letter; unfold_parse;
  repeat first
    [ match goal with
      | E : parseNDigits ?n ?s = Some _ |- context [parseNDigits ?n ?s] =>
          rewrite E; clear E
      | E : orElse ?a ?b = Some _ |- context [orElse ?a ?b] =>
          rewrite E; clear E
      | E : hasNonWhiteSpace ?s = _ |- context [hasNonWhiteSpace ?s] =>
          rewrite E; clear E
      | E : stripPrefix ?p ?s = Some _ |- context [stripPrefix ?p ?s] =>
          rewrite E; clear E
      end
    | rewrite stripPrefix_same
    | progress cbn [mapValue app] ];
  exact H.

Lemma covered_dot value :
  forall ref t, parse value "d.M.yyyy" ref ro = Normal (Some t) ->
                parse value "dd.MM.yyyy" ref ro = Normal (Some t).
Proof. covered. Qed.

Lemma covered_dash value :
  forall ref t, parse value "d-M-yyyy" ref ro = Normal (Some t) ->
                parse value "dd-MM-yyyy" ref ro = Normal (Some t).
Proof. covered. Qed.

Lemma covered_slash value :
  forall ref t, parse value "d/M/yyyy" ref ro = Normal (Some t) ->
                parse value "dd/MM/yyyy" ref ro = Normal (Some t).
Proof. covered. Qed.

Lemma covered_name value :
  forall ref t, parse value "d MMMM yyyy" ref ro = Normal (Some t) ->
                parse value "dd MMMM yyyy" ref ro = Normal (Some t).
Proof. covered. Qed.

End RedundantPatterns.

Section RedundantPatternsExtras.

(** X8.  The four patterns written with one-letter day and month tokens
    never decide a parse: whenever the parser returns a date, the pattern
    that produced it is one of the six others, because the two-letter
    tokens already accept one-digit days and months. *)
Theorem one_letter_patterns_never_decide (value : string)
    (tried : list string) (d : Date) :
  FirstMatch value DATE_FORMATS tried (Some d) ->
  In (last tried "")
     ["dd.MM.yyyy"; "dd-MM-yyyy"; "dd/MM/yyyy"; "dd MMMM yyyy";
      "yyyy-MM-dd"; "yyyy/MM/dd"].
Proof.
  intros F. unfold DATE_FORMATS in F.
  inversion F as [|? ? ? H1|? ? ? ? N1 F1]; subst; [cbn; tauto|].
  inversion F1 as [|? ? ? H2|? ? ? ? N2 F2]; subst; [cbn; tauto|].
  inversion F2 as [|? ? ? H3|? ? ? ? N3 F3]; subst; [cbn; tauto|].
  inversion F3 as [|? ? ? H4|? ? ? ? N4 F4]; subst.
  { pose proof (covered_dot value 0 d (H4 0)) as C.
    rewrite (N1 0) in C. discriminate. }
  inversion F4 as [|? ? ? H5|? ? ? ? N5 F5]; subst.
  { pose proof (covered_dash value 0 d (H5 0)) as C.
    rewrite (N2 0) in C. discriminate. }
  inversion F5 as [|? ? ? H6|? ? ? ? N6 F6]; subst.
  { pose proof (covered_slash value 0 d (H6 0)) as C.
    rewrite (N3 0) in C. discriminate. }
  inversion F6 as [|? ? ? H7|? ? ? ? N7 F7]; subst; [cbn; tauto|].
  inversion F7 as [|? ? ? H8|? ? ? ? N8 F8]; subst.
  { pose proof (covered_name value 0 d (H8 0)) as C.
    rewrite (N7 0) in C. discriminate. }
  inversion F8 as [|? ? ? H9|? ? ? ? N9 F9]; subst; [cbn; tauto|].
  inversion F9 as [|? ? ? H10|? ? ? ? N10 F10]; subst; [cbn; tauto|].
  inversion F10.
Qed.

(** An instance: ["1.2.2024"], written the way [d.M.yyyy] prints, is
    decided by [dd.MM.yyyy]. *)
Lemma one_letter_patterns_never_decide_witness :
  FirstMatch "1.2.2024" DATE_FORMATS ["dd.MM.yyyy"] (Some (ymd 2024 2 1)) /\
  In (last ["dd.MM.yyyy"] "")
     ["dd.MM.yyyy"; "dd-MM-yyyy"; "dd/MM/yyyy"; "dd MMMM yyyy";
      "yyyy-MM-dd"; "yyyy/MM/dd"].
Proof.
  assert (F : FirstMatch "1.2.2024" DATE_FORMATS ["dd.MM.yyyy"]
                (Some (ymd 2024 2 1))) by eval_first_match.
  split; [exact F|].
  exact (one_letter_patterns_never_decide "1.2.2024" _ _ F).
Defined.

End RedundantPatternsExtras.


Section CanonicalText.

Lemma digit_not_space c : isDigit c = true -> isWhiteSpace c = false.
Proof. intros H. unfold isWhiteSpace. code_lia. Qed.

Lemma trimEnd_last s c :
  isWhiteSpace c = false -> trimEnd (s ++ String c "") = s ++ String c "".
Proof.
  intros Hc. induction s as [|a s IH].
  - cbn [append trimEnd]. rewrite Hc. reflexivity.
  - cbn [append trimEnd]. rewrite IH.
    destruct s; reflexivity.
Qed.

(** A date printed as [dd.MM.yyyy]: the text is not empty, [trim] leaves
    it alone, and the first pattern reads the date back. *)
Lemma canonical_text D locale :
  TimeWithinDay D = 0 -> 1 <= getFullYear D <= 9999 ->
  exists c text,
    format D "dd.MM.yyyy" locale = Normal (String c text) /\
    trim (String c text) = String c text /\
    FirstMatch (String c text) DATE_FORMATS ["dd.MM.yyyy"] (Some D).
Proof.
  intros Hmid Hy. rewrite format_ddMMyyyy. fields D Hy.
  day2 D; month2 D; year4 D.
  do 2 eexists. split; [cbn [append]; reflexivity|].
  split.
  - unfold trim. cbn [trimStart].
    rewrite (digit_not_space d) by assumption.
    match goal with
    | |- trimEnd (String ?a (String ?b (String ?c (String ?e (String ?f
           (String ?g (String ?h (String ?i (String ?j (String ?k ""))))))))))
         = _ =>
        apply (trimEnd_last
                 (String a (String b (String c (String e (String f
                    (String g (String h (String i (String j "")))))))))
                 k)
    end.
    apply digit_not_space. assumption.
  - first_match.
Qed.

End CanonicalText.

Section TextExtras.

(** X9.  Clicking a cell of the grid and then pressing Search keeps the
    clicked day selected: the text the click writes into the input is
    read back as that day (for a day in the years 1 to 9999). *)
Theorem dayClick_then_search (day : Date) (st : AppState) (w w' : World) :
  In day (weekDays (selectedDate st)) ->
  1 <= getFullYear day <= 9999 ->
  exists st',
    dayClick day st w = (Normal st', w) /\
    fst (handleSearch st' w')
    = Normal {| selectedDate := day; inputValue := "";
                isOpen := isOpen st; error := None |}.
Proof.
  intros Hin Hy.
  assert (Hmid : TimeWithinDay day = 0).
  { destruct (In_weekDays _ _ Hin) as (i & Hi & ->).
    destruct (weekStart_eq (selectedDate st)) as (k & _ & _ & ->).
    rewrite <- Z.mul_add_distr_r. apply TimeWithinDay_midnight. }
  destruct (canonical_text day enUS Hmid Hy) as (c & text & Ef & Et & F).
  unfold dayClick, bind, ret. rewrite Ef.
  eexists. split; [reflexivity|].
  rewrite <- Et in F.
  match goal with
  | |- fst (handleSearch ?s _) = _ =>
      rewrite (handleSearch_run s w' _ _ ltac:(discriminate) F)
  end.
  reflexivity.
Qed.

(** An instance: the Wednesday of the week of 2 November 2026. *)
Lemma dayClick_then_search_witness :
  In (ymd 2026 11 4) (weekDays (selectedDate (typed ""))) /\
  1 <= getFullYear (ymd 2026 11 4) <= 9999 /\
  exists st',
    dayClick (ymd 2026 11 4) (typed "") (world0 0) = (Normal st', world0 0) /\
    fst (handleSearch st' (world0 5))
    = Normal {| selectedDate := ymd 2026 11 4; inputValue := "";
                isOpen := isOpen (typed ""); error := None |}.
Proof.
  assert (H1 : In (ymd 2026 11 4) (weekDays (selectedDate (typed ""))))
    by (vm_compute; tauto).
  assert (H2 : 1 <= getFullYear (ymd 2026 11 4) <= 9999)
    by (vm_compute; split; discriminate).
  split; [exact H1|]. split; [exact H2|].
  exact (dayClick_then_search (ymd 2026 11 4) (typed "") (world0 0) (world0 5)
           H1 H2).
Defined.

(** What [onBlur] and [handleSearch] do in any world: either the input
    is empty or parses under no pattern, and [onBlur] changes nothing; or
    it parses as [d], and [onBlur] writes [d] printed as [dd.MM.yyyy]. *)
Lemma onBlur_cases st :
  ((forall w, fst (onBlur st w) = Normal st) /\
   exists st2, forall w, fst (handleSearch st w) = Normal st2) \/
  exists d c text,
    format d "dd.MM.yyyy" enUS = Normal (String c text) /\
    trim (String c text) = String c text /\
    FirstMatch (String c text) DATE_FORMATS ["dd.MM.yyyy"] (Some d) /\
    (forall w,
        fst (onBlur st w)
        = Normal {| selectedDate := selectedDate st;
                    inputValue := String c text;
                    isOpen := isOpen st; error := None |}) /\
    (forall w,
        fst (handleSearch st w)
        = Normal {| selectedDate := d; inputValue := "";
                    isOpen := isOpen st; error := None |}).
Proof.
  destruct (inputValue st) as [|a s] eqn:Ei.
  { left. split.
    - intros w. unfold onBlur. rewrite Ei. reflexivity.
    - exists st. intros w. unfold handleSearch. rewrite Ei. reflexivity. }
  assert (Hne : inputValue st <> "") by (rewrite Ei; discriminate).
  clear Ei.
  destruct (parseFlexibleDate_spec (trim (inputValue st)) (world0 0))
    as (tried & r & F & _).
  destruct r as [d|].
  - right.
    assert (R : TimeWithinDay d = 0 /\ 1 <= getFullYear d <= 9999).
    { destruct (FirstMatch_Some _ _ _ _ F) as (Hin & Hp).
      exact (parse_result_range _ _ 0 _ Hin (Hp 0)). }
    destruct R as (Hmid & Hy).
    destruct (canonical_text d enUS Hmid Hy) as (c & text & Ef & Et & F').
    exists d, c, text. repeat split; auto.
    + intros w.
      destruct (onBlur_run st w _ _ Hne F) as (st' & Eb & text0 & Ef0 & ->).
      rewrite Ef in Ef0. apply Normal_inj in Ef0. subst text0.
      rewrite Eb. reflexivity.
    + intros w. rewrite (handleSearch_run st w _ _ Hne F). reflexivity.
  - left. split.
    + intros w. destruct (onBlur_run st w _ _ Hne F) as (st' & Eb & ->).
      rewrite Eb. reflexivity.
    + eexists. intros w. rewrite (handleSearch_run st w _ _ Hne F).
      reflexivity.
Qed.

(** X10.  Leaving the input twice does what leaving it once does: the
    text [onBlur] writes is read back as the same date and printed as the
    same text. *)
Theorem onBlur_idempotent (st : AppState) (w w' : World) :
  exists st1,
    fst (onBlur st w) = Normal st1 /\
    fst (onBlur st1 w') = Normal st1.
Proof.
  destruct (onBlur_cases st) as [(E & _)|(d & c & text & Ef & Et & F & E & _)].
  - exists st. split; apply E.
  - eexists. split; [apply E|].
    rewrite <- Et in F.
    match goal with
    | |- fst (onBlur ?s _) = _ =>
        destruct (onBlur_run s w' _ _ ltac:(discriminate) F)
          as (st2 & Eb & (text2 & Ef2 & ->))
    end.
    rewrite Eb. cbn [fst inputValue selectedDate isOpen] in *.
    rewrite Ef in Ef2. apply Normal_inj in Ef2. subst text2. reflexivity.
Qed.

(** X11.  Leaving the input never changes what Search does next: Search
    gives the same state after [onBlur] as without it. *)
Theorem search_after_blur (st : AppState) (w w' w'' : World) :
  exists st1,
    fst (onBlur st w) = Normal st1 /\
    fst (handleSearch st1 w') = fst (handleSearch st w'').
Proof.
  destruct (onBlur_cases st)
    as [(E & st2 & Hs)|(d & c & text & Ef & Et & F & E & Hs)].
  - exists st. split; [apply E|]. rewrite !Hs. reflexivity.
  - eexists. split; [apply E|]. rewrite Hs.
    rewrite <- Et in F.
    match goal with
    | |- fst (handleSearch ?s _) = _ =>
        rewrite (handleSearch_run s w' _ _ ltac:(discriminate) F)
    end.
    reflexivity.
Qed.

End TextExtras.


Section WeekNumberFacts.

Lemma januaryOf_eq y d : januaryOf y d = (DayFromYear y + d - 1) * msPerDay.
Proof.
  unfold januaryOf, setFullYear. rewrite setHours_midnight.
  rewrite Day_MakeDate by apply TimeWithinDay_range.
  unfold MakeDay. cbv zeta.
  change (0 / 12) with 0. change (0 mod 12) with 0.
  cbn [DaysBeforeMonth]. rewrite !Z.add_0_r. reflexivity.
Qed.

(** [startOfWeek] with Monday as first day: the Monday of the last seven
    days, at midnight. *)
Lemma startOfWeek_monday t :
  exists m, startOfWeek t 1 = m * msPerDay /\
            Day t - 6 <= m <= Day t /\ (m + 4) mod 7 = 1.
Proof.
  rewrite startOfWeek_eq.
  pose proof (WeekDay_range t) as R. unfold getDay, WeekDay in *.
  eexists. split; [reflexivity|].
  destruct (Z.ltb_spec ((Day t + 4) mod 7) 1);
    Z.to_euclidean_division_equations; lia.
Qed.

Lemma Day_lt_midnight t m : t < m * msPerDay -> Day t < m.
Proof.
  intros H. pose proof (MakeDate_Day t) as E.
  pose proof (TimeWithinDay_range t). unfold MakeDate, msPerDay in *. lia.
Qed.

Lemma Day_ge_midnight t m : m * msPerDay <= t -> m <= Day t.
Proof.
  intros H. pose proof (MakeDate_Day t) as E.
  pose proof (TimeWithinDay_range t). unfold MakeDate, msPerDay in *. lia.
Qed.

Lemma roundDiv_weeks q :
  roundDiv (q * 7 * msPerDay) millisecondsInWeek = q.
Proof.
  unfold roundDiv, millisecondsInWeek, msPerDay.
  Z.to_euclidean_division_equations; lia.
Qed.

Lemma year_days t :
  DayFromYear (getFullYear t) <= Day t < DayFromYear (getFullYear t + 1) /\
  365 <= DayFromYear (getFullYear t + 1) - DayFromYear (getFullYear t) <= 366.
Proof.
  unfold getFullYear, YearFromTime.
  pose proof (YearFromDay_spec (Day t)) as S.
  split; [exact S|]. rewrite DayFromYear_step. unfold DaysInYear.
  destruct (InLeapYearB _); lia.
Qed.

Lemma year_length y :
  365 <= DayFromYear (y + 1) - DayFromYear y <= 366.
Proof.
  rewrite DayFromYear_step. unfold DaysInYear. destruct (InLeapYearB _); lia.
Qed.

End WeekNumberFacts.

Section WeekNumberExtras.

(** X12.  The week number in the header, counted from the week that
    contains 1 January with weeks starting on Monday, is between 1 and
    53. *)
Theorem currentWeek_range (selectedDate : Date) :
  1 <= currentWeek selectedDate <= 53.
Proof.
  unfold currentWeek, getWeek, startOfWeekYear, getWeekYear, getTime.
  cbv zeta. rewrite !januaryOf_eq.
  destruct (year_days selectedDate) as (Hy & Hl).
  set (Y := getFullYear selectedDate) in *. clearbody Y.
  destruct (startOfWeek_monday selectedDate) as (m1 & -> & B1 & M1).
  destruct (startOfWeek_monday ((DayFromYear Y + 1 - 1) * msPerDay))
    as (m2 & E2 & B2 & M2).
  destruct (startOfWeek_monday ((DayFromYear (Y + 1) + 1 - 1) * msPerDay))
    as (m3 & E3 & B3 & M3).
  rewrite Day_midnight in B2, B3.
  rewrite E2, E3.
  assert (Q : forall a b, (a + 4) mod 7 = 1 -> (b + 4) mod 7 = 1 ->
              exists q, a - b = q * 7).
  { intros a b Ha Hb. exists ((a - b) / 7). clear - Ha Hb.
    Z.to_euclidean_division_equations; lia. }
  destruct (Q m1 m2 M1 M2) as (q & Eq).
  destruct (Q m3 m1 M3 M1) as (q' & Eq').
  clear Q M1 M2 M3.
  set (d := Day selectedDate) in *.
  destruct (Z.geb_spec selectedDate (m3 * msPerDay)) as [G|G].
  - rewrite E3. apply Day_ge_midnight in G. fold d in G. clearbody d.
    replace (m1 * msPerDay - m3 * msPerDay) with ((- q') * 7 * msPerDay) by lia.
    rewrite roundDiv_weeks. lia.
  - apply Day_lt_midnight in G. fold d in G.
    destruct (Z.geb_spec selectedDate (m2 * msPerDay)) as [G2|G2].
    + rewrite E2. clearbody d.
      replace (m1 * msPerDay - m2 * msPerDay) with (q * 7 * msPerDay) by lia.
      rewrite roundDiv_weeks. lia.
    + exfalso. apply Day_lt_midnight in G2. fold d in G2. lia.
Qed.

(** X13.  The number of weeks shown in the footer is 52 or 53. *)
Theorem totalWeeksInYear_52_or_53 (selectedDate : Date) :
  totalWeeksInYear selectedDate = 52 \/ totalWeeksInYear selectedDate = 53.
Proof.
  unfold totalWeeksInYear, getISOWeeksInYear, startOfISOWeekYear,
    startOfISOWeek, getTime. cbv zeta.
  set (iy := getISOWeekYear selectedDate). clearbody iy.
  rewrite !(januaryOf_eq iy).
  destruct (startOfWeek_monday ((DayFromYear iy + 4 - 1) * msPerDay))
    as (a & Ea & Ba & Ma).
  rewrite Day_midnight in Ba. rewrite Ea.
  pose proof (year_length iy) as L1.
  pose proof (year_length (iy + 1)) as L2.
  assert (Yn : getFullYear (addWeeks (a * msPerDay) 60) = iy + 1).
  { rewrite addWeeks_eq. unfold getFullYear, YearFromTime.
    apply YearFromDay_unique.
    rewrite <- Z.mul_add_distr_r, Day_midnight. lia. }
  assert (In1 : getISOWeekYear (addWeeks (a * msPerDay) 60) = iy + 1).
  { unfold getISOWeekYear, startOfISOWeek, getTime. cbv zeta. rewrite Yn.
    rewrite !januaryOf_eq.
    destruct (startOfWeek_monday ((DayFromYear (iy + 1 + 1) + 4 - 1) * msPerDay))
      as (c & -> & Bc & Mc).
    destruct (startOfWeek_monday ((DayFromYear (iy + 1) + 4 - 1) * msPerDay))
      as (b & -> & Bb & Mb).
    rewrite Day_midnight in Bc, Bb.
    rewrite addWeeks_eq.
    destruct (Z.geb_spec (a * msPerDay + 60 * 7 * msPerDay) (c * msPerDay));
      [unfold msPerDay in *; lia|].
    destruct (Z.geb_spec (a * msPerDay + 60 * 7 * msPerDay) (b * msPerDay));
      [reflexivity|unfold msPerDay in *; lia]. }
  rewrite In1, januaryOf_eq.
  destruct (startOfWeek_monday ((DayFromYear (iy + 1) + 4 - 1) * msPerDay))
    as (b & -> & Bb & Mb).
  rewrite Day_midnight in Bb.
  assert (b - a = 52 * 7 \/ b - a = 53 * 7)
    by (Z.to_euclidean_division_equations; lia).
  replace (b * msPerDay - a * msPerDay) with ((b - a) * msPerDay) by lia.
  destruct H as [-> | ->]; [left|right]; apply roundDiv_weeks.
Qed.

End WeekNumberExtras.
